(** * clang-tools-wheel: the wheel downloader [download.py]

    A shallow embedding of the platform resolver, the release fetcher, the
    asset matcher, the downloader and the platform-listing branch of [main],
    followed by the properties of the specification that concern them.

    Python values are modelled as follows.
    - [str] is [string]; the texts handled here (platform names, file names,
      URLs) are ASCII, so a character is an [ascii] and [str.lower] acts on
      the letters A-Z only.
    - a [dict] literal is a [gmap], a [set] a [gset], a list a [list].
    - a call that may raise returns a [result]; the external world (the
      values of [platform.system()] and [platform.machine()], the outcome of
      [subprocess.run], of [urlopen] and of [urlretrieve]) is an argument. *)

From Stdlib Require Import Ascii String ZArith Bool Lia.
From stdpp Require Import base option list gmap strings sorting.

(** ** Python string operations *)

Module Str.

(** [s.startswith(p)] *)
Fixpoint startswith (s p : string) {struct p} : bool :=
  match p, s with
  | EmptyString, _ => true
  | String _ _, EmptyString => false
  | String a p', String b s' => Ascii.eqb a b && startswith s' p'
  end.

(** [s.endswith(p)]: some tail of [s] is [p]. *)
Fixpoint endswith (s p : string) : bool :=
  String.eqb s p ||
  match s with
  | EmptyString => false
  | String _ s' => endswith s' p
  end.

(** [t in s]: [t] starts at some position of [s]. *)
Fixpoint contains (s t : string) : bool :=
  startswith s t ||
  match s with
  | EmptyString => false
  | String _ s' => contains s' t
  end.

(** [str.lower] on one ASCII character. *)
Definition lower_ascii (c : ascii) : ascii :=
  let n := nat_of_ascii c in
  if (65 <=? n) && (n <=? 90) then ascii_of_nat (n + 32) else c.

(** [s.lower()] *)
Fixpoint lower (s : string) : string :=
  match s with
  | EmptyString => EmptyString
  | String c s' => String (lower_ascii c) (lower s')
  end.

(** [s.lstrip(chars)]: drop the leading characters that occur in [chars]. *)
Fixpoint lstrip (s chars : string) : string :=
  match s with
  | EmptyString => EmptyString
  | String c s' =>
      if contains chars (String c EmptyString) then lstrip s' chars else s
  end.

(** [s.replace(old, new)] for a non-empty [old] (both calls of the script
    pass a literal): occurrences are found from the left and do not
    overlap. [skip] counts the characters of a found occurrence that are
    still to be dropped. *)
Fixpoint replace_go (old new : string) (skip : nat) (s : string) : string :=
  match s with
  | EmptyString => EmptyString
  | String c s' =>
      match skip with
      | S k => replace_go old new k s'
      | O =>
          if startswith s old
          then new +:+ replace_go old new (String.length old - 1) s'
          else String c (replace_go old new 0 s')
      end
  end.

Definition replace (s old new : string) : string := replace_go old new 0 s.

(** [s.split(sep)] for a non-empty [sep]: [cur] is the current token, in
    reverse; [skip] as in [replace_go]. *)
Fixpoint split_go (sep : string) (skip : nat) (cur s : string) : list string :=
  match s with
  | EmptyString => [String.rev cur]
  | String c s' =>
      match skip with
      | S k => split_go sep k cur s'
      | O =>
          if startswith s sep
          then String.rev cur :: split_go sep (String.length sep - 1) EmptyString s'
          else split_go sep 0 (String c cur) s'
      end
  end.

Definition split (s sep : string) : list string := split_go sep 0 EmptyString s.

(** [sep.join(parts)] *)
Fixpoint join (sep : string) (parts : list string) : string :=
  match parts with
  | [] => EmptyString
  | [p] => p
  | p :: rest => p +:+ sep +:+ join sep rest
  end.

(** Truth value of a string: the empty string is false. *)
Definition truthy (s : string) : bool :=
  match s with EmptyString => false | String _ _ => true end.

End Str.

(** ** Exceptions and results *)

Inductive exn_class :=
| ValueError | RuntimeError | FileNotFoundError | SubprocessError
| PermissionError | OSError | URLError | HTTPError | JSONDecodeError
| UnicodeDecodeError.

(** An exception: its class and its text, [str(e)]. All classes above derive
    from [Exception]. *)
Record exn := Exn { exn_cls : exn_class; exn_str : string }.

Inductive result (A : Type) :=
| Ok (a : A)
| Raise (e : exn).
Arguments Ok {A} a.
Arguments Raise {A} e.

(** ** Platform resolver: [get_platform_tag] *)

(** The dict literal [arch_map]. *)
Definition arch_map : gmap string string :=
  <["s390x" := "s390x"]>
  (<["ppc64le" := "ppc64le"]>
  (<["i686" := "i686"]>
  (<["i386" := "i686"]>
  (<["armv7l" := "armv7l"]>
  (<["arm64" := "arm64"]>
  (<["aarch64" := "aarch64"]>
  (<["amd64" := "x86_64"]>
  (<["x86_64" := "x86_64"]> ∅)))))))).

(** [arch_map.get(machine, machine)] *)
Definition arch_of (machine : string) : string :=
  default machine (arch_map !! machine).

(** What [subprocess.run(["ldd", "--version"], capture_output=True,
    text=True, check=False)] does: it returns a completed process, whatever
    its exit status, or raises. *)
Inductive run_outcome :=
| Completed (returncode : Z) (stdout stderr : string)
| RunRaises (e : exn).

(** [except (FileNotFoundError, subprocess.SubprocessError)] *)
Definition ldd_handler_catches (c : exn_class) : bool :=
  match c with
  | FileNotFoundError | SubprocessError => true
  | _ => false
  end.

(** The [try] block that sets [libc]. *)
Definition detect_libc (ldd : run_outcome) : result string :=
  match ldd with
  | Completed _ _ stderr =>
      if Str.contains (Str.lower stderr) "musl"
      then Ok "musllinux" else Ok "manylinux"
  | RunRaises e =>
      if ldd_handler_catches (exn_cls e) then Ok "manylinux" else Raise e
  end.

(** The [if]/[elif] chain of [get_platform_tag]: [Ok (Some tags)] is a
    [return], [Ok None] is control reaching the end of the chain. *)
Definition platform_branches (system arch : string) (ldd : run_outcome)
  : result (option (list string)) :=
  if String.eqb system "darwin" then
    if bool_decide (arch ∈ ["arm64"; "aarch64"])
    then Ok (Some ["macosx_11_0_arm64"])
    else Ok (Some ["macosx_10_9_x86_64"])
  else if String.eqb system "linux" then
    match detect_libc ldd with
    | Raise e => Raise e
    | Ok libc =>
        if String.eqb libc "manylinux" then
          if String.eqb arch "x86_64" then
            Ok (Some ["manylinux_2_27_x86_64.manylinux_2_28_x86_64";
                      "manylinux_2_17_x86_64.manylinux2014_x86_64"])
          else if String.eqb arch "aarch64" then
            Ok (Some ["manylinux_2_26_aarch64.manylinux_2_28_aarch64";
                      "manylinux_2_17_aarch64.manylinux2014_aarch64"])
          else if String.eqb arch "i686" then
            Ok (Some ["manylinux_2_26_i686.manylinux_2_28_i686";
                      "manylinux_2_17_i686.manylinux2014_i686"])
          else if String.eqb arch "ppc64le" then
            Ok (Some ["manylinux_2_26_ppc64le.manylinux_2_28_ppc64le"])
          else if String.eqb arch "s390x" then
            Ok (Some ["manylinux_2_26_s390x.manylinux_2_28_s390x"])
          else if String.eqb arch "armv7l" then
            Ok (Some ["manylinux_2_31_armv7l"])
          else Ok None
        else Ok (Some ["musllinux_1_2_" +:+ arch])
    end
  else if String.eqb system "windows" then
    if String.eqb arch "amd64" || String.eqb arch "x86_64"
    then Ok (Some ["win_amd64"])
    else if String.eqb arch "arm64" then Ok (Some ["win_arm64"])
    else Ok (Some ["win32"])
  else Ok None.

Definition unsupported_message (system machine : string) : string :=
  "Unsupported platform: " +:+ system +:+ " " +:+ machine.

(** [get_platform_tag()], given the values of [platform.system()] and
    [platform.machine()] and the outcome of the [ldd] call. *)
Definition get_platform_tag (platform_system platform_machine : string)
    (ldd : run_outcome) : result (list string) :=
  let system := Str.lower platform_system in
  let machine := Str.lower platform_machine in
  let arch := arch_of machine in
  match platform_branches system arch ldd with
  | Raise e => Raise e
  | Ok (Some tags) => Ok tags
  | Ok None => Raise (Exn ValueError (unsupported_message system machine))
  end.

(** ** Release fetcher: [get_release_info] *)

(** [Asset] and [ReleaseInfo] of the data model: the fields of the JSON
    objects that the script reads. *)
Record asset := Asset {
  name : string;
  browser_download_url : string;
  size : Z
}.

Record release_info := ReleaseInfo {
  tag_name : string;
  assets : list asset
}.

Global Instance asset_eq_dec : EqDecision asset.
Proof. solve_decision. Defined.

(** [if version:] on an optional string: [None] and the empty string are
    false. *)
Definition given (version : option string) : option string :=
  match version with
  | Some v => if Str.truthy v then Some v else None
  | None => None
  end.

(** The URL that [get_release_info] builds. *)
Definition release_url (repo : string) (version : option string) : string :=
  match given version with
  | Some v =>
      let clean_version := Str.lstrip v "v" in
      "https://api.github.com/repos/" +:+ repo +:+ "/releases/tags/v" +:+ clean_version
  | None =>
      "https://api.github.com/repos/" +:+ repo +:+ "/releases/latest"
  end.

Definition default_repo : string := "cpp-linter/clang-tools-wheel".

Section World.

(** [json.loads(urlopen(url).read().decode())]: the release object, or the
    exception raised on the way (network, HTTP status, decoding, parsing). *)
Variable urlopen_json : string → result release_info.

(** [urllib.request.urlretrieve(url, filename)] *)
Variable urlretrieve : string → string → result unit.

Definition get_release_info (repo : string) (version : option string)
  : result release_info :=
  let url := release_url repo version in
  match urlopen_json url with
  | Ok release => Ok release
  | Raise e =>
      match given version with
      | Some v =>
          Raise (Exn RuntimeError
            ("Failed to fetch release info for version " +:+ v +:+ ": " +:+ exn_str e))
      | None =>
          Raise (Exn RuntimeError
            ("Failed to fetch latest release info: " +:+ exn_str e))
      end
  end.

(** ** Downloader: [download_file]

    The result is the list of printed lines and the returned boolean. *)
Definition download_file (url filename : string) : list string * bool :=
  let started := "Downloading " +:+ filename +:+ "..." in
  match urlretrieve url filename with
  | Ok _ => ([started; "Successfully downloaded " +:+ filename], true)
  | Raise e =>
      ([started; "Failed to download " +:+ filename +:+ ": " +:+ exn_str e], false)
  end.

End World.

(** ** Asset matcher: [find_wheel_asset] *)

Definition wheel_pattern (tool_name : string) (version : option string) : string :=
  let pattern := tool_name +:+ "-" in
  let pattern :=
    match given version with
    | Some v => pattern +:+ (v +:+ "-")
    | None => pattern
    end in
  pattern +:+ "py2.py3-none-".

(** The condition of the inner loop. *)
Definition asset_matches (wheel_pattern_hyphen wheel_pattern_underscore
    platform_tag : string) (a : asset) : bool :=
  (Str.startswith (name a) wheel_pattern_hyphen
   || Str.startswith (name a) wheel_pattern_underscore)
  && Str.endswith (name a) ".whl"
  && Str.contains (name a) platform_tag.

(** [for asset in assets: if ...: return asset] *)
Fixpoint scan_assets (matches : asset → bool) (assets : list asset) : option asset :=
  match assets with
  | [] => None
  | a :: rest => if matches a then Some a else scan_assets matches rest
  end.

(** [for platform_tag in platform_tags: ...] *)
Fixpoint scan_tags (hyphen underscore : string) (assets : list asset)
    (platform_tags : list string) : option asset :=
  match platform_tags with
  | [] => None
  | platform_tag :: rest =>
      match scan_assets (asset_matches hyphen underscore platform_tag) assets with
      | Some a => Some a
      | None => scan_tags hyphen underscore assets rest
      end
  end.

Definition find_wheel_asset (assets : list asset) (tool : string)
    (platform_tags : list string) (version : option string) : option asset :=
  let tool_underscore := Str.replace tool "-" "_" in
  let wheel_pattern_hyphen := wheel_pattern tool version in
  let wheel_pattern_underscore := wheel_pattern tool_underscore version in
  scan_tags wheel_pattern_hyphen wheel_pattern_underscore assets platform_tags.

(** ** Platform listing: the [if args.list_platforms:] branch of [main] *)

(** The filter that builds [tool_assets]. *)
Definition is_tool_asset (tool : string) (a : asset) : bool :=
  let tool_underscore := Str.replace tool "-" "_" in
  (Str.startswith (name a) (tool +:+ "-")
   || Str.startswith (name a) (tool_underscore +:+ "-"))
  && Str.endswith (name a) ".whl".

(** One turn of the loop over [tool_assets]: the platform part of a file
    name, when the name has at least five tokens. *)
Definition platform_part (asset_name : string) : option string :=
  let name_without_ext := Str.replace asset_name ".whl" "" in
  let parts := Str.split name_without_ext "-" in
  if 5 <=? length parts then Some (Str.join "-" (drop 4 parts)) else None.

Definition add_platform (platforms : gset string) (a : asset) : gset string :=
  match platform_part (name a) with
  | Some platform_part => platforms ∪ {[platform_part]}
  | None => platforms
  end.

(** The set [platforms] after the loop. *)
Definition collect_platforms (tool : string) (release_assets : list asset)
  : gset string :=
  foldl add_platform ∅ (filter (λ a, is_tool_asset tool a = true) release_assets).

(** [sorted(platforms)] *)
Definition sorted (platforms : gset string) : list string :=
  merge_sort String.le (elements platforms).

(** The lines printed in listing mode once the release is fetched. *)
Definition list_platforms (tool : string) (release : release_info) : list string :=
  ("Available platforms for " +:+ tool +:+ " in release " +:+ tag_name release +:+ ":")
  :: ((λ platform_tag, "  " +:+ platform_tag)
        <$> sorted (collect_platforms tool (assets release))).

(** [main] with [--list-platforms]: the printed lines and the exit status
    ([return] without a value exits with 0). *)
Definition main_list_platforms (urlopen_json : string → result release_info)
    (tool : string) (version : option string) : list string * Z :=
  let fetching :=
    match given version with
    | Some v => "Fetching release information for version " +:+ v +:+ "..."
    | None => "Fetching latest release information..."
    end in
  match get_release_info urlopen_json default_repo version with
  | Raise e => ([fetching; "Error: " +:+ exn_str e], 1%Z)
  | Ok release => (fetching :: list_platforms tool release, 0%Z)
  end.

(** ** The acceptance conditions of the matcher *)

(** The matcher's test of one asset against one platform tag, for a tool and
    an optional version. *)
Definition tag_matches (tool : string) (version : option string)
    (platform_tag : string) (a : asset) : bool :=
  asset_matches (wheel_pattern tool version)
                (wheel_pattern (Str.replace tool "-" "_") version)
                platform_tag a.

(** The conditions of acceptance in the words of the specification. *)
Module Spec.

(** The tool name with every hyphen replaced by an underscore. *)
Fixpoint underscored (tool : string) : string :=
  match tool with
  | EmptyString => EmptyString
  | String c rest =>
      String (if Ascii.eqb c "-" then "_"%char else c) (underscored rest)
  end.

(** A tool name, a hyphen, the version and a hyphen when a version is
    given, and the fixed middle segment. *)
Definition expected_prefix (tool_name : string) (version : option string) : string :=
  tool_name +:+ "-"
    +:+ match given version with Some v => v +:+ "-" | None => "" end
    +:+ "py2.py3-none-".

Definition ends_with (s suffix : string) : Prop := ∃ r, s = r +:+ suffix.
Definition starts_with (s prefix : string) : Prop := ∃ r, s = prefix +:+ r.
Definition has_substring (s t : string) : Prop := ∃ a b, s = a +:+ t +:+ b.

Definition accepted (tool : string) (version : option string)
    (platform_tag asset_name : string) : Prop :=
  ends_with asset_name ".whl"
  ∧ has_substring asset_name platform_tag
  ∧ (starts_with asset_name (expected_prefix tool version)
     ∨ starts_with asset_name (expected_prefix (underscored tool) version)).

End Spec.

(** ** [get_latest_release_info] and [main] *)

Definition get_latest_release_info (urlopen_json : string → result release_info)
    (repo : string) : result release_info :=
  get_release_info urlopen_json repo None.

(** The parsed command line. *)
Record args := Args {
  arg_tool : string;
  arg_version : option string;
  arg_output : string;
  arg_platform : option string;
  arg_list_platforms : bool
}.

(** What one run finds outside the program: the platform names, the outcome
    of the [ldd] call, of the release request, of
    [Path(args.output).mkdir(parents=True, exist_ok=True)] and of the
    transfer. *)
Record world := World {
  w_system : string;
  w_machine : string;
  w_ldd : run_outcome;
  w_urlopen_json : string → result release_info;
  w_mkdir : string → result unit;
  w_urlretrieve : string → string → result unit
}.

(** The line feed that starts two of the lines printed after a download. *)
Definition newline : string := String "010"%char EmptyString.

(** [isinstance(e, ValueError)], the test of [except ValueError]: of the
    classes above, [UnicodeDecodeError] and [json.JSONDecodeError] derive from
    [ValueError]. *)
Definition is_value_error (c : exn_class) : bool :=
  match c with
  | ValueError | UnicodeDecodeError | JSONDecodeError => true
  | _ => false
  end.

(** The tool names that the parser admits ([choices]). *)
Inductive tool_choice := ClangFormat | ClangTidy.

Definition tool_name (tool : tool_choice) : string :=
  match tool with
  | ClangFormat => "clang-format"
  | ClangTidy => "clang-tidy"
  end.

(** What [parser.parse_args()] does with the command line: it returns the
    parsed values, the tool being one of the two choices and the output
    directory "." unless given; or it leaves the program through
    [SystemExit], with status 2 after a usage error (an unknown tool or
    option, a missing tool), or with status 0 after printing the help text
    for [-h]. *)
Inductive parse_outcome :=
| Parsed (tool : tool_choice) (version : option string) (output : string)
    (platform : option string) (list_platforms : bool)
| UsageError
| HelpPrinted (help : list string).

(** [platform_tags[0]], which raises [IndexError] on an empty list. *)
Definition first_tag (platform_tags : list string) : option string :=
  head platform_tags.

(** The text of that [IndexError]. *)
Definition index_error : string := "list index out of range".

Section Main.

(** Two conversions to text that are left open: [str(output_dir / name)] of
    [pathlib], and the megabyte figure [f"{size / (1024 * 1024):.1f}"], a
    floating-point division. *)
Variable path_join : string → string → string.
Variable format_mb : Z → string.

(** The steps of [main] after the platform tags are known: find the wheel,
    create the directory, download. The result is the lines printed from
    there on and the value given to [sys.exit]. *)
Definition main_download (a : args) (w : world) (release : release_info)
    (platform_tags : list string) : list string * Z :=
  let release_version := Str.lstrip (tag_name release) "v" in
  match find_wheel_asset (assets release) (arg_tool a) platform_tags
          (Some release_version) with
  | None =>
      match first_tag platform_tags with
      | None => (["Error: " +:+ index_error], 1%Z)
      | Some tag =>
          (["No wheel found for " +:+ arg_tool a +:+ " on platform " +:+ tag]
           ++ match given (arg_version a) with
              | Some v => ["Requested version: " +:+ v]
              | None => []
              end
           ++ ["Available release: " +:+ tag_name release;
               "Use --list-platforms to see all available platforms"], 1%Z)
      end
  | Some wheel_asset =>
      match w_mkdir w (arg_output a) with
      | Raise e => (["Error: " +:+ exn_str e], 1%Z)
      | Ok _ =>
          let filename := path_join (arg_output a) (name wheel_asset) in
          let '(printed, downloaded) :=
            download_file (w_urlretrieve w) (browser_download_url wheel_asset) filename in
          if downloaded
          then (printed
                ++ [newline +:+ "Wheel downloaded successfully!";
                    "File: " +:+ filename;
                    "Size: " +:+ format_mb (size wheel_asset) +:+ " MB";
                    newline +:+ "To install: pip install " +:+ filename], 0%Z)
          else (printed, 1%Z)
      end
  end.

(** The platform step of [main]: the lines it prints, and the tags, or
    [None] when [main] stops there with status 1. *)
Definition main_platform (a : args) (w : world) : list string * option (list string) :=
  match given (arg_platform a) with
  | Some platform => ([], Some [platform])
  | None =>
      match get_platform_tag (w_system w) (w_machine w) (w_ldd w) with
      | Ok platform_tags =>
          match first_tag platform_tags with
          | Some tag => (["Detected platform: " +:+ tag], Some platform_tags)
          | None => (["Error: " +:+ index_error], None)
          end
      | Raise e =>
          if is_value_error (exn_cls e)
          then (["Error: " +:+ exn_str e;
                 "Use --platform to specify manually, or --list-platforms to see available options"],
                None)
          else (["Error: " +:+ exn_str e], None)
      end
  end.

(** The body of [main()] from its [try] statement on, once
    [parser.parse_args()] has returned [a]: the printed lines and the value
    given to [sys.exit] (0 when [main] returns no value). *)
Definition main (a : args) (w : world) : list string * Z :=
  let fetching :=
    match given (arg_version a) with
    | Some v => "Fetching release information for version " +:+ v +:+ "..."
    | None => "Fetching latest release information..."
    end in
  match get_release_info (w_urlopen_json w) default_repo (arg_version a) with
  | Raise e => ([fetching; "Error: " +:+ exn_str e], 1%Z)
  | Ok release =>
      if arg_list_platforms a
      then (fetching :: list_platforms (arg_tool a) release, 0%Z)
      else
        match main_platform a w with
        | (printed, None) => (fetching :: printed, 1%Z)
        | (printed, Some platform_tags) =>
            let '(more, status) := main_download a w release platform_tags in
            (fetching :: printed ++ more, status)
        end
  end.

(** [sys.exit(main())], the parse step included: what is written to the
    standard output and the exit status of the script. *)
Definition main_with_parser (command_line : parse_outcome) (w : world)
  : list string * Z :=
  match command_line with
  | Parsed tool version output platform list_platforms =>
      main (Args (tool_name tool) version output platform list_platforms) w
  | UsageError => ([], 2%Z)
  | HelpPrinted help => (help, 0%Z)
  end.

End Main.

(** ** Inputs used to run the model *)

(** An asset with a given file name. *)
Definition wheel (n : string) : asset := Asset n ("https://example.invalid/" +:+ n) 1024.

(** A [glibc] answer of [ldd --version], and a [musl] one (musl's [ldd]
    writes its banner to the error stream and exits with status 1). *)
Definition ldd_glibc : run_outcome := Completed 0 "ldd (GNU libc) 2.39" "".
Definition ldd_musl : run_outcome :=
  Completed 1 "" "musl libc (x86_64) Version 1.2.5".
Definition ldd_missing : run_outcome :=
  RunRaises (Exn FileNotFoundError "[Errno 2] No such file or directory: 'ldd'").

(** A transfer that fails and one that completes. *)
Definition urlretrieve_refused (url filename : string) : result unit :=
  Raise (Exn URLError "<urlopen error [Errno 111] Connection refused>").
Definition urlretrieve_done (url filename : string) : result unit := Ok tt.
Definition urlopen_not_found (url : string) : result release_info :=
  Raise (Exn HTTPError "HTTP Error 404: Not Found").

(** The asset names of the specification's tie-break test, with the tags in
    the reverse of the resolver's order. *)
Definition wheel_2_27 : asset :=
  wheel "clang-format-20.1.8-py2.py3-none-manylinux_2_27_x86_64.manylinux_2_28_x86_64.whl".
Definition wheel_2_17 : asset :=
  wheel "clang-format-20.1.8-py2.py3-none-manylinux_2_17_x86_64.manylinux2014_x86_64.whl".

(** The two spellings of one wheel. *)
Definition wheel_hyphen : asset :=
  wheel "clang-format-20.1.8-py2.py3-none-win_amd64.whl".
Definition wheel_underscore : asset :=
  wheel "clang_format-20.1.8-py2.py3-none-win_amd64.whl".

(** The release of the specification's listing test, with hyphenated file
    names, and the same release with underscored file names. *)
Definition release_hyphenated : release_info :=
  ReleaseInfo "v1.0"
    [wheel "clang-tidy-1.0-py2.py3-none-manylinux_2_17_x86_64.manylinux2014_x86_64.whl";
     wheel "clang-tidy-1.0-py2.py3-none-win_amd64.whl"].

Definition release_underscored : release_info :=
  ReleaseInfo "v1.0"
    [wheel "clang_tidy-1.0-py2.py3-none-manylinux_2_17_x86_64.manylinux2014_x86_64.whl";
     wheel "clang_tidy-1.0-py2.py3-none-win_amd64.whl"].

(** A run of [main]: the command line of the specification's end-to-end
    test (clang-format, version 20.1.8, platform win_amd64), a release that
    holds the wheel, and a world in which every step succeeds. The two text
    conversions are given simple stand-ins. *)
Definition path_join_slash (directory file_name : string) : string :=
  directory +:+ "/" +:+ file_name.
Definition format_mb_whole (size : Z) : string := "0.0".

Definition release_20_1_8 : release_info :=
  ReleaseInfo "v20.1.8" [wheel_2_17; wheel_underscore].

Definition args_win : args :=
  Args "clang-format" (Some "20.1.8") "wheels" (Some "win_amd64") false.

Definition args_win_arm : args :=
  Args "clang-format" (Some "20.1.8") "wheels" (Some "win_arm64") false.

Definition world_fine : world :=
  World "Linux" "x86_64" ldd_glibc (λ _, Ok release_20_1_8) (λ _, Ok tt)
        urlretrieve_done.

Definition world_offline : world :=
  World "Linux" "x86_64" ldd_glibc urlopen_not_found (λ _, Ok tt) urlretrieve_done.

(** ** Tactics *)

(** Case analysis on the next string comparison of the goal. *)
Ltac case_eqb :=
  match goal with
  | |- context [String.eqb ?a ?b] =>
      destruct (String.eqb_spec a b) as [->|?]
  end.

(** A value different from each element of a list literal is not in it. *)
Ltac not_in_list :=
  let Hin := fresh "Hin" in
  intros Hin;
  repeat (apply elem_of_cons in Hin as [?|Hin]; [done|]);
  by apply elem_of_nil in Hin.

(** Case analysis on every test of the resolver. *)
Ltac resolver_cases :=
  unfold get_platform_tag, platform_branches;
  repeat match goal with
    | |- context [String.eqb ?a ?b] => destruct (String.eqb_spec a b)
    | |- context [bool_decide ?P] => destruct (bool_decide_reflect P)
    | |- context [detect_libc ?l] => destruct (detect_libc l) eqn:?
    end;
  cbn [orb andb].

(** ** Running the model *)

Example get_platform_tag_linux_x86 :
  get_platform_tag "Linux" "x86_64" (Completed 0 "ldd (GNU libc) 2.39" "")
  = Ok ["manylinux_2_27_x86_64.manylinux_2_28_x86_64";
        "manylinux_2_17_x86_64.manylinux2014_x86_64"].
Proof. vm_compute. reflexivity. Qed.

Example get_platform_tag_windows :
  get_platform_tag "Windows" "AMD64" (RunRaises (Exn FileNotFoundError "ldd"))
  = Ok ["win_amd64"].
Proof. vm_compute. reflexivity. Qed.

Example get_platform_tag_freebsd :
  get_platform_tag "FreeBSD" "amd64" (RunRaises (Exn FileNotFoundError "ldd"))
  = Raise (Exn ValueError "Unsupported platform: freebsd amd64").
Proof. vm_compute. reflexivity. Qed.

Example split_example :
  Str.split "a-b--c" "-" = ["a"; "b"; ""; "c"].
Proof. vm_compute. reflexivity. Qed.

Example replace_example :
  Str.replace "x.whl.whly" ".whl" "" = "xy".
Proof. vm_compute. reflexivity. Qed.

Example find_wheel_asset_example :
  find_wheel_asset
    [wheel "clang_format-20.1.8-py2.py3-none-win_amd64.whl";
     wheel "clang_format-20.1.8-py2.py3-none-manylinux_2_17_x86_64.manylinux2014_x86_64.whl"]
    "clang-format"
    ["manylinux_2_27_x86_64.manylinux_2_28_x86_64";
     "manylinux_2_17_x86_64.manylinux2014_x86_64"]
    (Some "20.1.8")
  = Some (wheel "clang_format-20.1.8-py2.py3-none-manylinux_2_17_x86_64.manylinux2014_x86_64.whl").
Proof. vm_compute. reflexivity. Qed.

Example list_platforms_underscored :
  list_platforms "clang-tidy"
    (ReleaseInfo "v1.0"
       [wheel "clang_tidy-1.0-py2.py3-none-win_amd64.whl";
        wheel "clang_tidy-1.0-py2.py3-none-manylinux_2_17_x86_64.manylinux2014_x86_64.whl"])
  = ["Available platforms for clang-tidy in release v1.0:";
     "  manylinux_2_17_x86_64.manylinux2014_x86_64";
     "  win_amd64"].
Proof. vm_compute. reflexivity. Qed.

(** ** Facts about the string operations *)

Section StrFacts.

Lemma app_cons (a : ascii) (s t : string) :
  String a s +:+ t = String a (s +:+ t).
Proof. reflexivity. Qed.

Lemma app_empty_l (s : string) : "" +:+ s = s.
Proof. reflexivity. Qed.

Lemma app_empty_r (s : string) : s +:+ "" = s.
Proof. induction s as [|a s IH]; [reflexivity|]. by rewrite app_cons, IH. Qed.

Lemma app_assoc (s t u : string) : (s +:+ t) +:+ u = s +:+ (t +:+ u).
Proof. induction s as [|a s IH]; [reflexivity|]. by rewrite !app_cons, IH. Qed.

Lemma startswith_spec (s p : string) :
  Str.startswith s p = true ↔ ∃ r, s = p +:+ r.
Proof.
  revert s. induction p as [|a p IH]; intros s.
  - simpl. split; [intros _; by exists s | done].
  - destruct s as [|b s]; simpl.
    + split; [done | intros [r Hr]; by rewrite app_cons in Hr].
    + rewrite andb_true_iff, Ascii.eqb_eq, IH. split.
      * intros [-> [r ->]]. by exists r.
      * intros [r Hr]. rewrite app_cons in Hr. injection Hr as -> ->. eauto.
Qed.

Lemma startswith_app (p r : string) : Str.startswith (p +:+ r) p = true.
Proof. apply startswith_spec. by exists r. Qed.

Lemma endswith_spec (s p : string) :
  Str.endswith s p = true ↔ ∃ r, s = r +:+ p.
Proof.
  induction s as [|a s IH].
  - change (Str.endswith "" p) with (String.eqb "" p || false).
    rewrite orb_false_r, String.eqb_eq. split.
    + intros <-. by exists "".
    + intros [[|b r] Hr]; [done | by rewrite app_cons in Hr].
  - change (Str.endswith (String a s) p)
      with (String.eqb (String a s) p || Str.endswith s p).
    rewrite orb_true_iff, String.eqb_eq, IH. split.
    + intros [<- | [r ->]]; [by exists "" | by exists (String a r)].
    + intros [[|b r] Hr].
      * left. by rewrite app_empty_l in Hr.
      * right. rewrite app_cons in Hr. injection Hr as -> ->. by exists r.
Qed.

Lemma contains_spec (s t : string) :
  Str.contains s t = true ↔ ∃ a b, s = a +:+ t +:+ b.
Proof.
  induction s as [|c s IH]; simpl.
  - rewrite orb_false_r, startswith_spec. split.
    + intros [r Hr]. by exists "", r.
    + intros [[|c a] [b Hb]]; [by exists b | by rewrite app_cons in Hb].
  - rewrite orb_true_iff, startswith_spec, IH. split.
    + intros [[r Hr] | (a & b & ->)]; [by exists "", r | by exists (String c a), b].
    + intros [[|c' a] [b Hb]].
      * left. by exists b.
      * right. rewrite app_cons in Hb. injection Hb as -> ->. by exists a, b.
Qed.

Lemma contains_app (a t b : string) : Str.contains (a +:+ t +:+ b) t = true.
Proof. apply contains_spec. by exists a, b. Qed.

Lemma contains_empty (s : string) : Str.contains s "" = true.
Proof. destruct s; reflexivity. Qed.

Lemma lower_ascii_idem (c : ascii) :
  Str.lower_ascii (Str.lower_ascii c) = Str.lower_ascii c.
Proof. destruct c as [[] [] [] [] [] [] [] []]; reflexivity. Qed.

Lemma lower_idem (s : string) : Str.lower (Str.lower s) = Str.lower s.
Proof.
  induction s as [|c s IH]; simpl; [done|]. by rewrite lower_ascii_idem, IH.
Qed.

End StrFacts.

(** ** Platform resolver *)

Section Resolver.

Implicit Types (platform_system platform_machine machine : string).
Implicit Types (ldd : run_outcome).

Lemma arch_map_value_fixed machine v :
  arch_map !! machine = Some v → arch_map !! v = Some v.
Proof.
  unfold arch_map. intros H.
  repeat (apply lookup_insert_Some in H as [[_ <-] | [_ H]];
          [vm_compute; reflexivity |]).
  by rewrite lookup_empty in H.
Qed.

Lemma arch_map_value_lower machine v :
  arch_map !! machine = Some v → Str.lower v = v.
Proof.
  unfold arch_map. intros H.
  repeat (apply lookup_insert_Some in H as [[_ <-] | [_ H]];
          [vm_compute; reflexivity |]).
  by rewrite lookup_empty in H.
Qed.

Lemma arch_of_unmapped machine :
  arch_map !! machine = None → arch_of machine = machine.
Proof. unfold arch_of. by intros ->. Qed.

Lemma linux_manylinux_unlisted arch ldd :
  detect_libc ldd = Ok "manylinux" →
  arch ∉ ["x86_64"; "aarch64"; "i686"; "ppc64le"; "s390x"; "armv7l"] →
  platform_branches "linux" arch ldd = Ok None.
Proof.
  intros Hlibc Harch. unfold platform_branches. rewrite Hlibc.
  change (String.eqb "linux" "darwin") with false.
  change (String.eqb "linux" "linux") with true.
  change (String.eqb "manylinux" "manylinux") with true. cbv iota.
  repeat (case_eqb; [exfalso; apply Harch; set_solver |]).
  done.
Qed.


Lemma other_os_branches system arch ldd :
  system ∉ ["darwin"; "linux"; "windows"] →
  platform_branches system arch ldd = Ok None.
Proof.
  intros Hos. unfold platform_branches.
  repeat (case_eqb; [exfalso; apply Hos; set_solver |]).
  done.
Qed.

Lemma unsupported_message_contains system machine :
  Str.contains (unsupported_message system machine) system = true
  ∧ Str.contains (unsupported_message system machine) machine = true.
Proof.
  unfold unsupported_message. split.
  - apply contains_app.
  - apply contains_spec.
    exists ("Unsupported platform: " +:+ system +:+ " "), "".
    by rewrite app_empty_r, !app_assoc.
Qed.

End Resolver.

(** C7. The alias normalization [arch_map.get(machine, machine)] is
    idempotent: normalizing a normalized name gives the same name. Every value
    of the table is a key mapped to itself, and a name that is not a key is
    returned unchanged. The same holds for the normalization together with
    the lower-casing that precedes it in [get_platform_tag]. *)
Theorem arch_normalization_idempotent :
  (∀ machine, arch_of (arch_of machine) = arch_of machine)
  ∧ map_Forall (λ _ v, arch_map !! v = Some v) arch_map
  ∧ (∀ machine, arch_of machine = machine ∨ is_Some (arch_map !! machine))
  ∧ (∀ machine,
       arch_of (Str.lower (arch_of (Str.lower machine)))
       = arch_of (Str.lower machine)).
Proof.
  assert (Hidem : ∀ machine, arch_of (arch_of machine) = arch_of machine).
  { intros machine. unfold arch_of at 2 3.
    destruct (arch_map !! machine) as [v|] eqn:Hm; simpl.
    - unfold arch_of. by rewrite (arch_map_value_fixed _ _ Hm).
    - by apply arch_of_unmapped. }
  split_and!.
  - exact Hidem.
  - intros machine v Hm. by eapply arch_map_value_fixed.
  - intros machine. unfold arch_of.
    destruct (arch_map !! machine) as [v|]; [right; eauto | by left].
  - intros machine.
    assert (Hlow : Str.lower (arch_of (Str.lower machine))
                   = arch_of (Str.lower machine)).
    { unfold arch_of.
      destruct (arch_map !! Str.lower machine) as [v|] eqn:Hm; simpl.
      - by eapply arch_map_value_lower.
      - apply lower_idem. }
    rewrite Hlow. apply Hidem.
Qed.

(** C3, amended. When the lower-cased OS name is none of darwin, linux and
    windows, or when it is linux, the libc flavour is manylinux and the
    normalized architecture is not in the manylinux table, the resolver raises
    [ValueError] with the message "Unsupported platform: <os> <machine>",
    which contains the lower-cased OS name and the lower-cased machine name
    (the machine name before alias normalization). *)
Theorem unsupported_platform_error platform_system platform_machine ldd :
  let system := Str.lower platform_system in
  let machine := Str.lower platform_machine in
  system ∉ ["darwin"; "linux"; "windows"]
  ∨ (system = "linux"
     ∧ detect_libc ldd = Ok "manylinux"
     ∧ arch_of machine ∉ ["x86_64"; "aarch64"; "i686"; "ppc64le"; "s390x"; "armv7l"]) →
  ∃ message,
    get_platform_tag platform_system platform_machine ldd
    = Raise (Exn ValueError message)
    ∧ message = "Unsupported platform: " +:+ system +:+ " " +:+ machine
    ∧ Str.contains message system = true
    ∧ Str.contains message machine = true.
Proof.
  intros system machine Hcase.
  exists (unsupported_message system machine).
  destruct (unsupported_message_contains system machine) as [Hs Hm].
  split_and!; [|done..].
  unfold get_platform_tag. fold system machine.
  destruct Hcase as [Hos | (Hlinux & Hlibc & Harch)].
  - by rewrite other_os_branches.
  - rewrite Hlinux. rewrite linux_manylinux_unlisted by done.
    by rewrite <- Hlinux.
Qed.

Lemma unsupported_platform_error_witness :
  (Str.lower "Linux" = "linux"
   ∧ detect_libc ldd_glibc = Ok "manylinux"
   ∧ arch_of (Str.lower "riscv64")
       ∉ ["x86_64"; "aarch64"; "i686"; "ppc64le"; "s390x"; "armv7l"])
  ∧ ∃ message,
      get_platform_tag "Linux" "riscv64" ldd_glibc = Raise (Exn ValueError message)
      ∧ message = "Unsupported platform: linux riscv64".
Proof.
  assert (Hcase : Str.lower "Linux" = "linux"
                  ∧ detect_libc ldd_glibc = Ok "manylinux"
                  ∧ arch_of (Str.lower "riscv64")
                      ∉ ["x86_64"; "aarch64"; "i686"; "ppc64le"; "s390x"; "armv7l"]).
  { split_and!; [reflexivity | reflexivity | compute_done]. }
  split; [exact Hcase |].
  destruct (unsupported_platform_error "Linux" "riscv64" ldd_glibc (or_intror Hcase))
    as (message & Hraise & Hmessage & _).
  exists message. split; [exact Hraise | exact Hmessage].
Defined.

(** C3 as stated fails on the names that the runtime reports: "Linux" is not
    one of the strings darwin, linux, windows, yet the resolver returns the
    manylinux tags for it, because it compares the lower-cased name; and for
    "FreeBSD" on "AMD64" the message holds the lower-cased names, not the
    reported ones. *)
Lemma unsupported_platform_raw_names_counterexample :
  (("Linux" ∉ ["darwin"; "linux"; "windows"])
   ∧ get_platform_tag "Linux" "x86_64" ldd_glibc
     = Ok ["manylinux_2_27_x86_64.manylinux_2_28_x86_64";
           "manylinux_2_17_x86_64.manylinux2014_x86_64"])
  ∧ (("FreeBSD" ∉ ["darwin"; "linux"; "windows"])
     ∧ get_platform_tag "FreeBSD" "AMD64" ldd_missing
       = Raise (Exn ValueError "Unsupported platform: freebsd amd64")
     ∧ Str.contains "Unsupported platform: freebsd amd64" "FreeBSD" = false
     ∧ Str.contains "Unsupported platform: freebsd amd64" "AMD64" = false).
Proof.
  split_and!; try compute_done.
Qed.




(** C10. On Linux with the manylinux flavour the machine name "arm64" ends
    in the unsupported-platform error, while "aarch64" gives the manylinux
    aarch64 tags: the alias table maps arm64 to itself, not to aarch64, and
    the manylinux branch has no case for arm64. *)
Theorem linux_arm64_unsupported platform_system ldd :
  Str.lower platform_system = "linux" →
  detect_libc ldd = Ok "manylinux" →
  get_platform_tag platform_system "arm64" ldd
  = Raise (Exn ValueError "Unsupported platform: linux arm64")
  ∧ get_platform_tag platform_system "aarch64" ldd
    = Ok ["manylinux_2_26_aarch64.manylinux_2_28_aarch64";
          "manylinux_2_17_aarch64.manylinux2014_aarch64"]
  ∧ arch_map !! "arm64" = Some "arm64"
  ∧ arch_of "arm64" ≠ arch_of "aarch64".
Proof.
  intros Hlinux Hlibc. split_and!.
  - unfold get_platform_tag. rewrite Hlinux.
    rewrite linux_manylinux_unlisted; [done | done | compute_done].
  - unfold get_platform_tag. rewrite Hlinux.
    unfold platform_branches. rewrite Hlibc. reflexivity.
  - reflexivity.
  - compute_done.
Qed.

Lemma linux_arm64_unsupported_witness :
  (Str.lower "Linux" = "linux" ∧ detect_libc ldd_glibc = Ok "manylinux")
  ∧ get_platform_tag "Linux" "arm64" ldd_glibc
    = Raise (Exn ValueError "Unsupported platform: linux arm64")
  ∧ get_platform_tag "Linux" "aarch64" ldd_glibc
    = Ok ["manylinux_2_26_aarch64.manylinux_2_28_aarch64";
          "manylinux_2_17_aarch64.manylinux2014_aarch64"].
Proof.
  assert (Hlinux : Str.lower "Linux" = "linux") by reflexivity.
  assert (Hlibc : detect_libc ldd_glibc = Ok "manylinux") by reflexivity.
  split; [by split |].
  destruct (linux_arm64_unsupported "Linux" ldd_glibc Hlinux Hlibc)
    as (Harm & Haarch & _).
  by split.
Defined.

(** ** Release fetcher and downloader *)

Section Fetcher.

Variable urlopen_json : string → result release_info.
Variable urlretrieve : string → string → result unit.

Lemma given_nonempty (v : string) : v ≠ "" → given (Some v) = Some v.
Proof. by destruct v. Qed.

Lemma lstrip_v (s : string) : Str.lstrip (String "v" s) "v" = Str.lstrip s "v".
Proof. reflexivity. Qed.

(** C6. Whatever the version, when fetching the release raises [e], the
    fetcher raises [RuntimeError]; its message contains the text of [e], and
    the requested version string when one was given; without a version
    ([None] or the empty string) it is the latest-release message, made of a
    fixed text and the text of [e] only. *)
Theorem release_fetch_failure (repo : string) (version : option string) (e : exn) :
  urlopen_json (release_url repo version) = Raise e →
  ∃ message,
    get_release_info urlopen_json repo version = Raise (Exn RuntimeError message)
    ∧ Str.contains message (exn_str e) = true
    ∧ (∀ v, version = Some v → Str.contains message v = true)
    ∧ (∀ v, given version = Some v →
            message = "Failed to fetch release info for version " +:+ v
                        +:+ ": " +:+ exn_str e)
    ∧ (given version = None →
       message = "Failed to fetch latest release info: " +:+ exn_str e).
Proof.
  intros Hraise. unfold get_release_info. rewrite Hraise.
  destruct (given version) as [v|] eqn:Hgiven.
  - eexists. split_and!; [reflexivity | | | | done].
    + apply contains_spec.
      exists ("Failed to fetch release info for version " +:+ v +:+ ": "), "".
      by rewrite app_empty_r, !app_assoc.
    + intros v' ->. simpl in Hgiven.
      destruct (Str.truthy v'); [|done]. injection Hgiven as ->.
      apply contains_app.
    + by intros v' [= ->].
  - eexists. split_and!; [reflexivity | | | done | done].
    + apply contains_spec. exists "Failed to fetch latest release info: ", "".
      by rewrite app_empty_r.
    + intros v ->. simpl in Hgiven.
      destruct v; [apply contains_empty | done].
Qed.

(** C8. The downloader always returns a boolean and raises nothing: when
    the transfer raises, the failure line is printed and the result is
    [false]; when it completes, the confirmation line is printed and the
    result is [true]. *)
Theorem download_file_total (url filename : string) :
  (∀ e, urlretrieve url filename = Raise e →
        download_file urlretrieve url filename
        = (["Downloading " +:+ filename +:+ "...";
            "Failed to download " +:+ filename +:+ ": " +:+ exn_str e], false))
  ∧ (∀ u, urlretrieve url filename = Ok u →
          download_file urlretrieve url filename
          = (["Downloading " +:+ filename +:+ "...";
              "Successfully downloaded " +:+ filename], true))
  ∧ (∃ printed returned,
       download_file urlretrieve url filename = (printed, returned)
       ∧ (returned = true ↔ ∃ u, urlretrieve url filename = Ok u)).
Proof.
  unfold download_file. split_and!.
  - by intros e ->.
  - by intros u ->.
  - destruct (urlretrieve url filename) as [u|e].
    + do 2 eexists. split; [reflexivity|]. split; [by exists u | done].
    + do 2 eexists. split; [reflexivity|]. split; [done | by intros [? ?]].
Qed.

End Fetcher.

(** C9, amended. For a non-empty version string [s], the URL built for
    "v" followed by [s] is the URL built for [s]: the leading "v" characters
    are all removed before one "v" is put back. *)
Theorem release_url_leading_v (repo s : string) :
  s ≠ "" →
  release_url repo (Some (String "v" s)) = release_url repo (Some s).
Proof.
  intros Hs. unfold release_url.
  rewrite (given_nonempty s Hs).
  change (given (Some (String "v" s))) with (Some (String "v" s)).
  cbv beta iota zeta. by rewrite lstrip_v.
Qed.

Lemma release_url_leading_v_witness :
  "20.1.8" ≠ ""
  ∧ release_url default_repo (Some "v20.1.8") = release_url default_repo (Some "20.1.8")
  ∧ release_url default_repo (Some "20.1.8")
    = "https://api.github.com/repos/cpp-linter/clang-tools-wheel/releases/tags/v20.1.8".
Proof.
  assert (Hne : "20.1.8" ≠ "") by discriminate.
  split; [exact Hne |]. split.
  - exact (release_url_leading_v default_repo "20.1.8" Hne).
  - reflexivity.
Defined.

(** C9 as stated fails at the empty string: the empty version is false in
    [if version:], so its URL is the latest-release one, while "v" alone is
    looked up as a tag. *)
Lemma release_url_leading_v_counterexample :
  release_url default_repo (Some "")
  = "https://api.github.com/repos/cpp-linter/clang-tools-wheel/releases/latest"
  ∧ release_url default_repo (Some (String "v" ""))
    = "https://api.github.com/repos/cpp-linter/clang-tools-wheel/releases/tags/v"
  ∧ release_url default_repo (Some (String "v" "")) ≠ release_url default_repo (Some "").
Proof. split_and!; [reflexivity | reflexivity | discriminate]. Qed.

Lemma release_fetch_failure_witness :
  urlopen_not_found (release_url default_repo (Some "99.9.9"))
  = Raise (Exn HTTPError "HTTP Error 404: Not Found")
  ∧ get_release_info urlopen_not_found default_repo (Some "99.9.9")
    = Raise (Exn RuntimeError
        "Failed to fetch release info for version 99.9.9: HTTP Error 404: Not Found").
Proof.
  assert (Hraise : urlopen_not_found (release_url default_repo (Some "99.9.9"))
                   = Raise (Exn HTTPError "HTTP Error 404: Not Found"))
    by reflexivity.
  split; [exact Hraise |].
  destruct (release_fetch_failure urlopen_not_found default_repo (Some "99.9.9") _ Hraise)
    as (message & Hget & _ & _ & Hversion & _).
  rewrite Hget. f_equal. f_equal. exact (Hversion "99.9.9" eq_refl).
Defined.

Lemma download_file_total_witness :
  (urlretrieve_refused "https://example.invalid/w.whl" "w.whl"
   = Raise (Exn URLError "<urlopen error [Errno 111] Connection refused>")
   ∧ urlretrieve_done "https://example.invalid/w.whl" "w.whl" = Ok tt)
  ∧ download_file urlretrieve_refused "https://example.invalid/w.whl" "w.whl"
    = (["Downloading w.whl...";
        "Failed to download w.whl: <urlopen error [Errno 111] Connection refused>"],
       false)
  ∧ download_file urlretrieve_done "https://example.invalid/w.whl" "w.whl"
    = (["Downloading w.whl..."; "Successfully downloaded w.whl"], true).
Proof.
  split; [by split |]. split.
  - exact (proj1 (download_file_total urlretrieve_refused
             "https://example.invalid/w.whl" "w.whl") _ eq_refl).
  - exact (proj1 (proj2 (download_file_total urlretrieve_done
             "https://example.invalid/w.whl" "w.whl")) _ eq_refl).
Defined.

(** ** Asset matcher *)

Section Matcher.

Implicit Types (a : asset) (tool platform_tag : string).
Implicit Types (version : option string).

Lemma replace_hyphen tool : Str.replace tool "-" "_" = Spec.underscored tool.
Proof.
  unfold Str.replace. induction tool as [|c tool IH]; [reflexivity|].
  change (Str.replace_go "-" "_" 0 (String c tool))
    with (if Ascii.eqb "-" c && true
          then "_" +:+ Str.replace_go "-" "_" 0 tool
          else String c (Str.replace_go "-" "_" 0 tool)).
  change (Spec.underscored (String c tool))
    with (String (if Ascii.eqb c "-" then "_"%char else c) (Spec.underscored tool)).
  rewrite IH, andb_true_r, (Ascii.eqb_sym "-" c).
  by destruct (Ascii.eqb c "-").
Qed.

Lemma wheel_pattern_expected tool version :
  wheel_pattern tool version = Spec.expected_prefix tool version.
Proof.
  unfold wheel_pattern, Spec.expected_prefix.
  destruct (given version) as [v|]; by rewrite ?app_assoc.
Qed.

Lemma tag_matches_accepted tool version platform_tag a :
  tag_matches tool version platform_tag a = true
  ↔ Spec.accepted tool version platform_tag (name a).
Proof.
  unfold tag_matches, asset_matches, Spec.accepted.
  rewrite !andb_true_iff, orb_true_iff.
  rewrite !startswith_spec, endswith_spec, contains_spec.
  rewrite replace_hyphen, !wheel_pattern_expected.
  unfold Spec.ends_with, Spec.starts_with, Spec.has_substring. tauto.
Qed.

(** The inner loop returns the first asset that passes the test. *)
Lemma scan_assets_first (f : asset → bool) (l : list asset) (j : nat) a1 :
  l !! j = Some a1 → f a1 = true →
  ∃ k a, k ≤ j ∧ l !! k = Some a ∧ f a = true
         ∧ (∀ k' b, k' < k → l !! k' = Some b → f b = false)
         ∧ scan_assets f l = Some a.
Proof.
  revert j. induction l as [|b l IH]; intros j Hj Hf; [done|].
  simpl. destruct (f b) eqn:Hb.
  - exists 0, b. split_and!; [lia | done | done | | done].
    intros k' c Hk'. lia.
  - destruct j as [|j]; simpl in Hj.
    + injection Hj as ->. congruence.
    + destruct (IH j Hj Hf) as (k & a & Hk & Hl & Ha & Hfirst & Hscan).
      exists (S k), a. split_and!; [lia | done | done | | done].
      intros [|k'] c Hk' Hc; simpl in Hc.
      * by injection Hc as <-.
      * eapply Hfirst; [|done]. lia.
Qed.

Lemma scan_assets_Some (f : asset → bool) (l : list asset) a :
  scan_assets f l = Some a → a ∈ l ∧ f a = true.
Proof.
  induction l as [|b l IH]; [done|]. simpl.
  destruct (f b) eqn:Hb.
  - intros [= ->]. split; [left | done].
  - intros [Hin Hf]%IH. split; [by right | done].
Qed.

Lemma scan_assets_None (f : asset → bool) (l : list asset) :
  scan_assets f l = None ↔ ∀ a, a ∈ l → f a = false.
Proof.
  induction l as [|b l IH]; simpl.
  - split; [intros _ a Ha; by apply elem_of_nil in Ha | done].
  - destruct (f b) eqn:Hb.
    + split; [done | intros H; specialize (H b); rewrite Hb in H; discriminate H; left].
    + rewrite IH. split.
      * intros H a [->|Ha]%elem_of_cons; auto.
      * intros H a Ha. apply H. by right.
Qed.

Lemma scan_tags_Some (h u : string) (l : list asset) (tags : list string) a :
  scan_tags h u l tags = Some a →
  a ∈ l ∧ ∃ platform_tag, platform_tag ∈ tags ∧ asset_matches h u platform_tag a = true.
Proof.
  induction tags as [|t tags IH]; [done|]. simpl.
  destruct (scan_assets (asset_matches h u t) l) as [b|] eqn:Hscan.
  - intros [= ->]. apply scan_assets_Some in Hscan as [Hin Hm].
    split; [done|]. exists t. split; [left | done].
  - intros [Hin (t' & Ht' & Hm)]%IH. split; [done|].
    exists t'. split; [by right | done].
Qed.

Lemma scan_tags_None (h u : string) (l : list asset) (tags : list string) :
  scan_tags h u l tags = None
  ↔ ∀ platform_tag a, platform_tag ∈ tags → a ∈ l →
                      asset_matches h u platform_tag a = false.
Proof.
  induction tags as [|t tags IH]; simpl.
  - split; [intros _ t a Ht; by apply elem_of_nil in Ht | done].
  - destruct (scan_assets (asset_matches h u t) l) as [b|] eqn:Hscan.
    + apply scan_assets_Some in Hscan as [Hin Hm]. split; [done|].
      intros H. rewrite (H t b) in Hm; [done | left | done].
    + rewrite IH. rewrite scan_assets_None in Hscan. split.
      * intros H t' a [->|Ht']%elem_of_cons Ha; auto.
      * intros H t' a Ht' Ha. apply H; [by right | done].
Qed.

Lemma find_wheel_asset_unfold (l : list asset) tool (tags : list string) version :
  find_wheel_asset l tool tags version
  = scan_tags (wheel_pattern tool version)
              (wheel_pattern (Str.replace tool "-" "_") version) l tags.
Proof. reflexivity. Qed.

End Matcher.

(** C1. With the tags [T1; T2], when an asset matching [T2] stands earlier
    in the list than an asset matching [T1], the matcher returns an asset that
    matches [T1]: the first one of the list that does. It is the given asset
    when no earlier asset matches [T1]. The order of the tags comes before the
    order of the list. *)
Theorem tag_order_beats_list_order
    (assets : list asset) (tool : string) (version : option string)
    (T1 T2 : string) (i j : nat) (a2 a1 : asset) :
  i < j →
  assets !! i = Some a2 → tag_matches tool version T2 a2 = true →
  assets !! j = Some a1 → tag_matches tool version T1 a1 = true →
  ∃ k a,
    find_wheel_asset assets tool [T1; T2] version = Some a
    ∧ k ≤ j ∧ assets !! k = Some a
    ∧ tag_matches tool version T1 a = true
    ∧ (∀ k' b, k' < k → assets !! k' = Some b → tag_matches tool version T1 b = false)
    ∧ ((∀ k' b, k' < j → assets !! k' = Some b → tag_matches tool version T1 b = false)
       → a = a1).
Proof.
  intros _ _ _ Hj H1.
  destruct (scan_assets_first
              (asset_matches (wheel_pattern tool version)
                 (wheel_pattern (Str.replace tool "-" "_") version) T1)
              assets j a1 Hj H1)
    as (k & a & Hk & Hlook & Ha & Hfirst & Hscan).
  exists k, a. split_and!; try done.
  - rewrite find_wheel_asset_unfold. simpl. by rewrite Hscan.
  - intros Hnone. destruct (decide (k = j)) as [->|Hne].
    + congruence.
    + assert (Hk' : k < j) by lia.
      pose proof (Hnone k a Hk' Hlook) as Hno.
      unfold tag_matches in Hno. congruence.
Qed.

Lemma tag_order_beats_list_order_witness :
  (0 < 1
   ∧ [wheel_2_27; wheel_2_17] !! 0 = Some wheel_2_27
   ∧ tag_matches "clang-format" (Some "20.1.8")
       "manylinux_2_27_x86_64.manylinux_2_28_x86_64" wheel_2_27 = true
   ∧ [wheel_2_27; wheel_2_17] !! 1 = Some wheel_2_17
   ∧ tag_matches "clang-format" (Some "20.1.8")
       "manylinux_2_17_x86_64.manylinux2014_x86_64" wheel_2_17 = true)
  ∧ find_wheel_asset [wheel_2_27; wheel_2_17] "clang-format"
      ["manylinux_2_17_x86_64.manylinux2014_x86_64";
       "manylinux_2_27_x86_64.manylinux_2_28_x86_64"] (Some "20.1.8")
    = Some wheel_2_17.
Proof.
  assert (Hlt : 0 < 1) by lia.
  assert (Hi : [wheel_2_27; wheel_2_17] !! 0 = Some wheel_2_27) by reflexivity.
  assert (H2 : tag_matches "clang-format" (Some "20.1.8")
                 "manylinux_2_27_x86_64.manylinux_2_28_x86_64" wheel_2_27 = true)
    by (vm_compute; reflexivity).
  assert (Hj : [wheel_2_27; wheel_2_17] !! 1 = Some wheel_2_17) by reflexivity.
  assert (H1 : tag_matches "clang-format" (Some "20.1.8")
                 "manylinux_2_17_x86_64.manylinux2014_x86_64" wheel_2_17 = true)
    by (vm_compute; reflexivity).
  split; [by split_and! |].
  destruct (tag_order_beats_list_order [wheel_2_27; wheel_2_17] "clang-format"
              (Some "20.1.8") _ _ 0 1 wheel_2_27 wheel_2_17 Hlt Hi H2 Hj H1)
    as (k & a & Hfind & _ & _ & _ & _ & Hsame).
  rewrite Hfind. f_equal. apply Hsame.
  intros [|k'] b Hk' Hb; [|lia].
  injection Hb as <-. vm_compute. reflexivity.
Defined.

(** C5. An asset is accepted for a platform tag exactly when its name ends
    with ".whl", contains the tag, and starts with the hyphenated or the
    underscored prefix: the tool name (as given, or with its hyphens replaced
    by underscores), a hyphen, the version and a hyphen when a version is
    given, then "py2.py3-none-". The matcher returns only accepted assets and
    returns one whenever some asset is accepted for some tag. The suffix and
    tag conditions are the same for both prefixes, so a name built from either
    prefix and the same remainder, which ends with ".whl" and holds the tag,
    is accepted. *)
Theorem matcher_acceptance (tool : string) (version : option string)
    (platform_tag : string) :
  (∀ a, tag_matches tool version platform_tag a = true
        ↔ Spec.accepted tool version platform_tag (name a))
  ∧ (∀ a, find_wheel_asset [a] tool [platform_tag] version = Some a
          ↔ Spec.accepted tool version platform_tag (name a))
  ∧ (∀ assets tags a,
       find_wheel_asset assets tool tags version = Some a →
       a ∈ assets ∧ ∃ t, t ∈ tags ∧ Spec.accepted tool version t (name a))
  ∧ (∀ assets tags,
       is_Some (find_wheel_asset assets tool tags version)
       ↔ ∃ a t, a ∈ assets ∧ t ∈ tags ∧ Spec.accepted tool version t (name a))
  ∧ (∀ rest,
       Spec.ends_with rest ".whl" → Spec.has_substring rest platform_tag →
       Spec.accepted tool version platform_tag
         (Spec.expected_prefix tool version +:+ rest)
       ∧ Spec.accepted tool version platform_tag
           (Spec.expected_prefix (Spec.underscored tool) version +:+ rest)).
Proof.
  split_and!.
  - intros a. apply tag_matches_accepted.
  - intros a. rewrite <- tag_matches_accepted.
    rewrite find_wheel_asset_unfold. simpl. unfold tag_matches.
    destruct (asset_matches _ _ platform_tag a); split; done.
  - intros assets tags a [Hin (t & Ht & Hm)]%scan_tags_Some.
    split; [done|]. exists t. split; [done|]. by apply tag_matches_accepted.
  - intros assets tags. rewrite find_wheel_asset_unfold. split.
    + intros [a [Hin (t & Ht & Hm)]%scan_tags_Some].
      exists a, t. split_and!; [done | done | by apply tag_matches_accepted].
    + intros (a & t & Hin & Ht & Hacc%tag_matches_accepted).
      destruct (scan_tags _ _ assets tags) as [b|] eqn:Hscan; [by eexists|].
      rewrite scan_tags_None in Hscan. specialize (Hscan t a Ht Hin).
      unfold tag_matches in Hacc. congruence.
  - intros rest [r ->] (x & y & Hxy).
    assert (Hboth : ∀ prefix,
      Spec.ends_with (prefix +:+ r +:+ ".whl") ".whl"
      ∧ Spec.has_substring (prefix +:+ r +:+ ".whl") platform_tag).
    { intros prefix. split.
      - exists (prefix +:+ r). by rewrite app_assoc.
      - exists (prefix +:+ x), y. by rewrite Hxy, app_assoc. }
    split.
    + destruct (Hboth (Spec.expected_prefix tool version)) as [He Hs].
      split_and!; [done | done |]. left. by eexists.
    + destruct (Hboth (Spec.expected_prefix (Spec.underscored tool) version)) as [He Hs].
      split_and!; [done | done |]. right. by eexists.
Qed.

Lemma matcher_acceptance_witness :
  (Spec.ends_with "win_amd64.whl" ".whl"
   ∧ Spec.has_substring "win_amd64.whl" "win_amd64")
  ∧ Spec.accepted "clang-format" (Some "20.1.8") "win_amd64" (name wheel_hyphen)
  ∧ Spec.accepted "clang-format" (Some "20.1.8") "win_amd64" (name wheel_underscore)
  ∧ find_wheel_asset [wheel_hyphen] "clang-format" ["win_amd64"] (Some "20.1.8")
    = Some wheel_hyphen
  ∧ find_wheel_asset [wheel_underscore] "clang-format" ["win_amd64"] (Some "20.1.8")
    = Some wheel_underscore.
Proof.
  assert (Hends : Spec.ends_with "win_amd64.whl" ".whl") by (by exists "win_amd64").
  assert (Hsub : Spec.has_substring "win_amd64.whl" "win_amd64") by (by exists "", ".whl").
  destruct (matcher_acceptance "clang-format" (Some "20.1.8") "win_amd64")
    as (_ & Hone & _ & _ & Hforms).
  destruct (Hforms "win_amd64.whl" Hends Hsub) as [Hh Hu].
  split_and!; [done | done | exact Hh | exact Hu | |].
  - apply (proj2 (Hone wheel_hyphen)). exact Hh.
  - apply (proj2 (Hone wheel_underscore)). exact Hu.
Defined.

(** ** Platform listing *)

(** The tokens that the listing keeps are those from index 4 on, which are
    the tokens after "py2.py3-none" when the tool name is written with an
    underscore. *)
Example platform_part_underscored :
  platform_part "clang_tidy-1.0-py2.py3-none-win_amd64.whl" = Some "win_amd64".
Proof. vm_compute. reflexivity. Qed.

Example main_list_platforms_underscored :
  main_list_platforms (λ _, Ok release_underscored) "clang-tidy" None
  = (["Fetching latest release information...";
      "Available platforms for clang-tidy in release v1.0:";
      "  manylinux_2_17_x86_64.manylinux2014_x86_64";
      "  win_amd64"], 0%Z).
Proof. vm_compute. reflexivity. Qed.

(** C2. On the release whose assets are
    clang-tidy-1.0-py2.py3-none-manylinux_2_17_x86_64.manylinux2014_x86_64.whl
    and clang-tidy-1.0-py2.py3-none-win_amd64.whl, listing mode does not
    print the platform substrings after the "py2.py3-none" marker: the tool
    name holds a hyphen, so the token "none" is at index 4 and is kept. The
    lines printed are "  none-manylinux_2_17_x86_64.manylinux2014_x86_64"
    and "  none-win_amd64". *)
Theorem list_platforms_hyphenated_names :
  Str.split "clang-tidy-1.0-py2.py3-none-win_amd64" "-"
  = ["clang"; "tidy"; "1.0"; "py2.py3"; "none"; "win_amd64"]
  ∧ platform_part "clang-tidy-1.0-py2.py3-none-win_amd64.whl" = Some "none-win_amd64"
  ∧ main_list_platforms (λ _, Ok release_hyphenated) "clang-tidy" None
    = (["Fetching latest release information...";
        "Available platforms for clang-tidy in release v1.0:";
        "  none-manylinux_2_17_x86_64.manylinux2014_x86_64";
        "  none-win_amd64"], 0%Z).
Proof. split_and!; vm_compute; reflexivity. Qed.

(** ** Further properties of the platform resolver *)

Lemma arch_of_cases (machine : string) :
  arch_of machine =
    if decide (machine = "amd64") then "x86_64"
    else if decide (machine = "i386") then "i686"
    else machine.
Proof.
  unfold arch_of, arch_map.
  repeat (rewrite lookup_insert; case_decide;
          [subst; repeat case_decide; done |]).
  rewrite lookup_empty. simpl.
  repeat case_decide; congruence.
Qed.

(** X1. The alias table changes two names only: amd64 becomes x86_64 and
    i386 becomes i686. Every other machine name, listed in the table or not,
    is returned as it is. *)
Theorem arch_of_changes_two_names (machine : string) :
  arch_of "amd64" = "x86_64"
  ∧ arch_of "i386" = "i686"
  ∧ (machine ≠ "amd64" → machine ≠ "i386" → arch_of machine = machine).
Proof.
  split_and!; [reflexivity | reflexivity |].
  intros Hamd Hi386. rewrite arch_of_cases.
  by rewrite !decide_False.
Qed.

Lemma arch_of_changes_two_names_witness :
  ("riscv64" ≠ "amd64" ∧ "riscv64" ≠ "i386") ∧ arch_of "riscv64" = "riscv64".
Proof.
  assert (H1 : "riscv64" ≠ "amd64") by discriminate.
  assert (H2 : "riscv64" ≠ "i386") by discriminate.
  split; [by split |].
  exact (proj2 (proj2 (arch_of_changes_two_names "riscv64")) H1 H2).
Defined.

(** X2. A successful resolution is never empty: it has a first tag (so
    [platform_tags[0]] in [main] cannot fail) and at most two tags. *)
Theorem resolved_tags_nonempty
    (platform_system platform_machine : string) (ldd : run_outcome)
    (tags : list string) :
  get_platform_tag platform_system platform_machine ldd = Ok tags →
  (∃ tag, first_tag tags = Some tag) ∧ 1 ≤ length tags ≤ 2.
Proof.
  resolver_cases; intros [= <-]; (split; [by eexists | simpl; lia]).
Qed.

Lemma resolved_tags_nonempty_witness :
  get_platform_tag "Linux" "x86_64" ldd_glibc
  = Ok ["manylinux_2_27_x86_64.manylinux_2_28_x86_64";
        "manylinux_2_17_x86_64.manylinux2014_x86_64"]
  ∧ first_tag ["manylinux_2_27_x86_64.manylinux_2_28_x86_64";
               "manylinux_2_17_x86_64.manylinux2014_x86_64"]
    = Some "manylinux_2_27_x86_64.manylinux_2_28_x86_64".
Proof.
  assert (H : get_platform_tag "Linux" "x86_64" ldd_glibc
              = Ok ["manylinux_2_27_x86_64.manylinux_2_28_x86_64";
                    "manylinux_2_17_x86_64.manylinux2014_x86_64"])
    by reflexivity.
  split; [exact H |].
  destruct (resolved_tags_nonempty "Linux" "x86_64" ldd_glibc _ H) as [[tag Htag] _].
  reflexivity.
Defined.

(** X3. The resolver raises in two ways only. It raises [ValueError] with
    the unsupported-platform message when the lower-cased OS name is none of
    darwin, linux, windows, or when on linux the manylinux flavour meets an
    architecture outside the manylinux table; and on linux it lets through,
    unchanged, an exception of the [ldd] call that is neither
    [FileNotFoundError] nor [SubprocessError]. *)
Theorem resolver_raises_only
    (platform_system platform_machine : string) (ldd : run_outcome) (e : exn) :
  get_platform_tag platform_system platform_machine ldd = Raise e →
  let system := Str.lower platform_system in
  let machine := Str.lower platform_machine in
  (e = Exn ValueError (unsupported_message system machine)
   ∧ ((system ∉ ["darwin"; "linux"; "windows"])
      ∨ (system = "linux" ∧ detect_libc ldd = Ok "manylinux"
         ∧ arch_of machine ∉ ["x86_64"; "aarch64"; "i686"; "ppc64le"; "s390x"; "armv7l"])))
  ∨ (system = "linux" ∧ ldd = RunRaises e
     ∧ ldd_handler_catches (exn_cls e) = false).
Proof.
  intros Hraise system machine. revert Hraise.
  unfold get_platform_tag. fold system machine.
  unfold platform_branches.
  destruct (String.eqb_spec system "darwin") as [Hd|Hd].
  { by case_bool_decide. }
  destruct (String.eqb_spec system "linux") as [Hl|Hl].
  - destruct (detect_libc ldd) as [libc|e'] eqn:Hlibc.
    + destruct (String.eqb_spec libc "manylinux") as [->|Hm]; [|done].
      repeat (case_eqb; [done|]).
      intros [= <-]. left. split; [done|]. right. split_and!; [done..|].
      not_in_list.
    + intros [= ->]. right. split; [done|].
      destruct ldd as [rc out err|e'']; simpl in Hlibc.
      * by destruct (Str.contains _ _).
      * destruct (ldd_handler_catches (exn_cls e'')) eqn:Hc; [done|].
        by injection Hlibc as ->.
  - destruct (String.eqb_spec system "windows") as [Hw|Hw].
    + by repeat (case_eqb; cbn [orb]).
    + intros [= <-]. left. split; [done|]. left. not_in_list.
Qed.

Lemma resolver_raises_only_witness :
  get_platform_tag "Linux" "x86_64"
    (RunRaises (Exn PermissionError "[Errno 13] Permission denied: 'ldd'"))
  = Raise (Exn PermissionError "[Errno 13] Permission denied: 'ldd'")
  ∧ ¬ (Exn PermissionError "[Errno 13] Permission denied: 'ldd'"
       = Exn ValueError (unsupported_message "linux" "x86_64"))
  ∧ ldd_handler_catches PermissionError = false.
Proof.
  assert (Hraise : get_platform_tag "Linux" "x86_64"
                     (RunRaises (Exn PermissionError "[Errno 13] Permission denied: 'ldd'"))
                   = Raise (Exn PermissionError "[Errno 13] Permission denied: 'ldd'"))
    by reflexivity.
  split; [exact Hraise |]. split; [discriminate |].
  destruct (resolver_raises_only _ _ _ _ Hraise) as [[Hvalue _] | (_ & _ & Hcatch)].
  - discriminate Hvalue.
  - exact Hcatch.
Defined.

(** X4. Outside linux the [ldd] call plays no part: for a lower-cased OS
    name other than linux the result is the same whatever that call does. *)
Theorem ldd_only_on_linux
    (platform_system platform_machine : string) (ldd ldd' : run_outcome) :
  Str.lower platform_system ≠ "linux" →
  get_platform_tag platform_system platform_machine ldd
  = get_platform_tag platform_system platform_machine ldd'.
Proof.
  intros Hos. unfold get_platform_tag, platform_branches.
  destruct (String.eqb_spec (Str.lower platform_system) "darwin"); [done|].
  destruct (String.eqb_spec (Str.lower platform_system) "linux"); done.
Qed.

Lemma ldd_only_on_linux_witness :
  Str.lower "Darwin" ≠ "linux"
  ∧ get_platform_tag "Darwin" "arm64" ldd_musl
    = get_platform_tag "Darwin" "arm64" ldd_missing.
Proof.
  assert (Hos : Str.lower "Darwin" ≠ "linux") by discriminate.
  split; [exact Hos |].
  exact (ldd_only_on_linux "Darwin" "arm64" ldd_musl ldd_missing Hos).
Defined.

(** X5. On linux an exception of the [ldd] call other than
    [FileNotFoundError] and [SubprocessError] (a [PermissionError], say) is
    not turned into the manylinux default: the resolver raises that very
    exception, whatever the machine is. *)
Theorem ldd_exception_propagates
    (platform_system platform_machine : string) (e : exn) :
  Str.lower platform_system = "linux" →
  ldd_handler_catches (exn_cls e) = false →
  get_platform_tag platform_system platform_machine (RunRaises e) = Raise e.
Proof.
  intros Hos Hcls. unfold get_platform_tag, platform_branches.
  rewrite Hos. simpl. by rewrite Hcls.
Qed.

Lemma ldd_exception_propagates_witness :
  (Str.lower "Linux" = "linux"
   ∧ ldd_handler_catches (exn_cls (Exn PermissionError "[Errno 13] Permission denied: 'ldd'"))
     = false)
  ∧ get_platform_tag "Linux" "x86_64"
      (RunRaises (Exn PermissionError "[Errno 13] Permission denied: 'ldd'"))
    = Raise (Exn PermissionError "[Errno 13] Permission denied: 'ldd'").
Proof.
  assert (Hos : Str.lower "Linux" = "linux") by reflexivity.
  assert (Hcls : ldd_handler_catches
                   (exn_cls (Exn PermissionError "[Errno 13] Permission denied: 'ldd'"))
                 = false) by reflexivity.
  split; [by split |].
  exact (ldd_exception_propagates "Linux" "x86_64" _ Hos Hcls).
Defined.

(** X6. The resolver does not depend on the letter case of the two platform
    names: the lower-cased names give the same result, error message
    included. *)
Theorem resolver_case_insensitive
    (platform_system platform_machine : string) (ldd : run_outcome) :
  get_platform_tag (Str.lower platform_system) (Str.lower platform_machine) ldd
  = get_platform_tag platform_system platform_machine ldd.
Proof. unfold get_platform_tag. by rewrite !lower_idem. Qed.

(** X7. On macOS and on Windows the resolver never fails and returns one
    tag, chosen by the lower-cased machine name: on macOS the arm64 tag for
    arm64 and aarch64 and the x86_64 tag for every other name; on Windows
    win_amd64 for amd64 and x86_64, win_arm64 for arm64 only (not for
    aarch64), and win32 for every other name. *)
Theorem darwin_windows_always_resolve (platform_system platform_machine : string)
    (ldd : run_outcome) :
  let machine := Str.lower platform_machine in
  (Str.lower platform_system = "darwin" →
   get_platform_tag platform_system platform_machine ldd
   = Ok [if bool_decide (machine ∈ ["arm64"; "aarch64"])
         then "macosx_11_0_arm64" else "macosx_10_9_x86_64"])
  ∧ (Str.lower platform_system = "windows" →
     get_platform_tag platform_system platform_machine ldd
     = Ok [if bool_decide (machine ∈ ["amd64"; "x86_64"]) then "win_amd64"
           else if bool_decide (machine = "arm64") then "win_arm64"
           else "win32"]).
Proof.
  intros machine. subst machine.
  unfold get_platform_tag, platform_branches.
  generalize (Str.lower platform_machine). intros machine.
  split; intros ->.
  - change (String.eqb "darwin" "darwin") with true. cbv iota.
    rewrite (arch_of_cases machine).
    destruct (decide (machine = "amd64")) as [->|Hamd]; [vm_compute; reflexivity|].
    destruct (decide (machine = "i386")) as [->|Hi386]; [vm_compute; reflexivity|].
    by destruct (bool_decide _).
  - change (String.eqb "windows" "darwin") with false.
    change (String.eqb "windows" "linux") with false.
    change (String.eqb "windows" "windows") with true. cbv iota.
    rewrite (arch_of_cases machine).
    destruct (decide (machine = "amd64")) as [->|Hamd]; [vm_compute; reflexivity|].
    destruct (decide (machine = "i386")) as [->|Hi386]; [vm_compute; reflexivity|].
    destruct (String.eqb_spec machine "amd64") as [->|_]; [done|].
    destruct (String.eqb_spec machine "x86_64") as [->|Hx]; [vm_compute; reflexivity|].
    cbn [orb]. rewrite (bool_decide_eq_false_2 (machine ∈ _)) by not_in_list.
    destruct (String.eqb_spec machine "arm64") as [->|Ha]; [vm_compute; reflexivity|].
    by rewrite (bool_decide_eq_false_2 (machine = _)).
Qed.

Lemma darwin_windows_always_resolve_witness :
  (Str.lower "Darwin" = "darwin" ∧ Str.lower "Windows" = "windows")
  ∧ get_platform_tag "Darwin" "arm64" ldd_missing = Ok ["macosx_11_0_arm64"]
  ∧ get_platform_tag "Windows" "AMD64" ldd_missing = Ok ["win_amd64"]
  ∧ get_platform_tag "Windows" "aarch64" ldd_missing = Ok ["win32"].
Proof.
  assert (Hd : Str.lower "Darwin" = "darwin") by reflexivity.
  assert (Hw : Str.lower "Windows" = "windows") by reflexivity.
  split; [by split |]. split_and!.
  - exact (proj1 (darwin_windows_always_resolve "Darwin" "arm64" ldd_missing) Hd).
  - exact (proj2 (darwin_windows_always_resolve "Windows" "AMD64" ldd_missing) Hw).
  - exact (proj2 (darwin_windows_always_resolve "Windows" "aarch64" ldd_missing) Hw).
Defined.

(** X8. On linux every returned tag names the detected flavour and the
    normalized architecture: it starts with the flavour (manylinux or
    musllinux) and ends with an underscore and the architecture. *)
Theorem linux_tags_name_flavour_and_arch
    (platform_system platform_machine : string) (ldd : run_outcome)
    (tags : list string) :
  Str.lower platform_system = "linux" →
  get_platform_tag platform_system platform_machine ldd = Ok tags →
  ∃ libc,
    detect_libc ldd = Ok libc
    ∧ ∀ tag, tag ∈ tags →
        Str.startswith tag libc = true
        ∧ Str.endswith tag ("_" +:+ arch_of (Str.lower platform_machine)) = true.
Proof.
  intros Hos. unfold get_platform_tag, platform_branches. rewrite Hos.
  generalize (arch_of (Str.lower platform_machine)). intros arch.
  change (String.eqb "linux" "darwin") with false.
  change (String.eqb "linux" "linux") with true. cbv iota.
  destruct (detect_libc ldd) as [libc|e] eqn:Hlibc; [|done].
  assert (Hflavour : libc = "musllinux" ∨ libc = "manylinux").
  { destruct ldd as [rc out err|e]; simpl in Hlibc.
    - destruct (Str.contains _ _); injection Hlibc as <-; auto.
    - destruct (ldd_handler_catches _); [injection Hlibc as <-; auto | done]. }
  destruct Hflavour as [-> | ->].
  - change (String.eqb "musllinux" "manylinux") with false. cbv iota.
    intros [= <-]. exists "musllinux". split; [done|].
    intros tag ->%list_elem_of_singleton. split.
    + apply startswith_spec. by exists ("_1_2_" +:+ arch).
    + apply endswith_spec. by exists "musllinux_1_2".
  - change (String.eqb "manylinux" "manylinux") with true. cbv iota.
    intros Hget. exists "manylinux". split; [done|]. revert Hget.
    repeat (case_eqb;
      [intros [= <-] tag Htag;
       repeat (apply elem_of_cons in Htag as [->|Htag]; [by vm_compute|]);
       by apply elem_of_nil in Htag |]).
    done.
Qed.

Lemma linux_tags_name_flavour_and_arch_witness :
  (Str.lower "Linux" = "linux"
   ∧ get_platform_tag "Linux" "i386" ldd_glibc
     = Ok ["manylinux_2_26_i686.manylinux_2_28_i686";
           "manylinux_2_17_i686.manylinux2014_i686"])
  ∧ Str.endswith "manylinux_2_17_i686.manylinux2014_i686" "_i686" = true.
Proof.
  assert (Hos : Str.lower "Linux" = "linux") by reflexivity.
  assert (Hget : get_platform_tag "Linux" "i386" ldd_glibc
                 = Ok ["manylinux_2_26_i686.manylinux_2_28_i686";
                       "manylinux_2_17_i686.manylinux2014_i686"]) by reflexivity.
  split; [by split |].
  destruct (linux_tags_name_flavour_and_arch "Linux" "i386" ldd_glibc _ Hos Hget)
    as (libc & _ & Htags).
  apply (Htags "manylinux_2_17_i686.manylinux2014_i686").
  apply elem_of_cons. right. apply elem_of_cons. by left.
Defined.

(** ** Further properties of the release fetcher *)

Lemma lstrip_v_split (v : string) :
  ∃ p, v = p +:+ Str.lstrip v "v" ∧ Str.lstrip p "v" = "".
Proof.
  induction v as [|c v (p & Hv & Hp)]; [by exists ""|].
  change (Str.lstrip (String c v) "v")
    with (if Ascii.eqb "v" c && true || false
          then Str.lstrip v "v" else String c v).
  destruct (Ascii.eqb_spec "v" c) as [<-|Hc]; cbn [andb orb].
  - exists (String "v" p). rewrite app_cons. by rewrite <- Hv.
  - by exists "".
Qed.

Lemma lstrip_v_no_leading_v (v : string) :
  Str.startswith (Str.lstrip v "v") "v" = false.
Proof.
  induction v as [|c v IH]; [done|].
  change (Str.lstrip (String c v) "v")
    with (if Ascii.eqb "v" c && true || false
          then Str.lstrip v "v" else String c v).
  destruct (Ascii.eqb_spec "v" c) as [<-|Hc]; cbn [andb orb]; [done|].
  change (Str.startswith (String c v) "v") with (Ascii.eqb "v" c && true).
  by destruct (Ascii.eqb_spec "v" c).
Qed.

(** X9. The tag that is looked up is "v" followed by the version without
    its leading "v" characters: the version is some "v"s followed by the
    cleaned version, which does not start with "v"; and two non-empty versions
    are looked up at the same URL exactly when their cleaned versions are
    equal. *)
Theorem release_url_cleaned_version (repo v w : string) :
  v ≠ "" → w ≠ "" →
  (release_url repo (Some v) = release_url repo (Some w)
   ↔ Str.lstrip v "v" = Str.lstrip w "v")
  ∧ release_url repo (Some v)
    = "https://api.github.com/repos/" +:+ repo +:+ "/releases/tags/v"
        +:+ Str.lstrip v "v"
  ∧ Str.startswith (Str.lstrip v "v") "v" = false
  ∧ ∃ p, v = p +:+ Str.lstrip v "v" ∧ Str.lstrip p "v" = "".
Proof.
  intros Hv Hw. unfold release_url.
  rewrite (given_nonempty v Hv), (given_nonempty w Hw). cbv zeta.
  split_and!.
  - split; [|by intros ->].
    intros Heq. by repeat apply (inj (String.app _)) in Heq.
  - done.
  - apply lstrip_v_no_leading_v.
  - apply lstrip_v_split.
Qed.

Lemma release_url_cleaned_version_witness :
  ("vv20.1.8" ≠ "" ∧ "20.1.8" ≠ "")
  ∧ release_url default_repo (Some "vv20.1.8") = release_url default_repo (Some "20.1.8").
Proof.
  assert (Hv : "vv20.1.8" ≠ "") by discriminate.
  assert (Hw : "20.1.8" ≠ "") by discriminate.
  split; [by split |].
  apply (proj1 (release_url_cleaned_version default_repo _ _ Hv Hw)).
  reflexivity.
Defined.

(** X10. A version that is absent or empty is the request for the latest
    release: [get_release_info] then asks the latest-release URL and gives
    what [get_latest_release_info] gives, result or error. *)
Theorem empty_version_is_latest
    (urlopen_json : string → result release_info) (repo : string)
    (version : option string) :
  given version = None →
  release_url repo version
  = "https://api.github.com/repos/" +:+ repo +:+ "/releases/latest"
  ∧ get_release_info urlopen_json repo version
    = get_latest_release_info urlopen_json repo.
Proof.
  intros Hgiven. unfold get_latest_release_info, get_release_info, release_url.
  rewrite Hgiven. done.
Qed.

Lemma empty_version_is_latest_witness :
  given (Some "") = None
  ∧ get_release_info urlopen_not_found default_repo (Some "")
    = Raise (Exn RuntimeError
        "Failed to fetch latest release info: HTTP Error 404: Not Found").
Proof.
  assert (Hgiven : given (Some "") = None) by reflexivity.
  split; [exact Hgiven |].
  rewrite (proj2 (empty_version_is_latest urlopen_not_found default_repo (Some "") Hgiven)).
  reflexivity.
Defined.

(** ** Further properties of the asset matcher *)

Lemma contains_trans (s t u : string) :
  Str.contains s t = true → Str.contains t u = true → Str.contains s u = true.
Proof.
  rewrite !contains_spec. intros (a & b & ->) (c & d & ->).
  exists (a +:+ c), (d +:+ b). by rewrite !app_assoc.
Qed.

Lemma scan_tags_app (h u : string) (l : list asset) (tags more : list string) :
  scan_tags h u l (tags ++ more)
  = match scan_tags h u l tags with
    | Some a => Some a
    | None => scan_tags h u l more
    end.
Proof.
  induction tags as [|t tags IH]; [done|]. simpl.
  by destruct (scan_assets _ l).
Qed.

(** X11. Tags given later are tried only when the earlier ones find
    nothing: on a tag list continued by further tags the matcher returns what
    it returns on the first part when that is an asset, and otherwise what it
    returns on the further tags. With no tags, or no assets, it returns
    nothing. *)
Theorem later_tags_are_fallbacks (assets : list asset) (tool : string)
    (tags more : list string) (version : option string) :
  find_wheel_asset assets tool (tags ++ more) version
  = match find_wheel_asset assets tool tags version with
    | Some a => Some a
    | None => find_wheel_asset assets tool more version
    end
  ∧ find_wheel_asset assets tool [] version = None
  ∧ find_wheel_asset [] tool tags version = None.
Proof.
  rewrite !find_wheel_asset_unfold. split_and!.
  - apply scan_tags_app.
  - done.
  - by induction tags.
Qed.

(** X12. The returned asset, for any list of tags: it is the first asset of
    the list that matches the first tag (in tag order) for which any asset
    matches. *)
Theorem first_tag_with_a_match_wins (assets : list asset) (tool : string)
    (tags : list string) (version : option string) (a : asset) :
  find_wheel_asset assets tool tags version = Some a
  ↔ ∃ i tag k,
      tags !! i = Some tag
      ∧ (∀ j earlier b, j < i → tags !! j = Some earlier → b ∈ assets →
           tag_matches tool version earlier b = false)
      ∧ assets !! k = Some a
      ∧ tag_matches tool version tag a = true
      ∧ (∀ k' b, k' < k → assets !! k' = Some b →
           tag_matches tool version tag b = false).
Proof.
  rewrite find_wheel_asset_unfold. unfold tag_matches.
  generalize (wheel_pattern tool version)
             (wheel_pattern (Str.replace tool "-" "_") version).
  intros h u. induction tags as [|t tags IH].
  - split; [done | by intros (i & tag & k & Hi & _)].
  - simpl. destruct (scan_assets (asset_matches h u t) assets) as [b|] eqn:Hscan.
    + split.
      * intros [= ->].
        destruct (scan_assets_Some _ _ _ Hscan) as [[k Hk]%list_elem_of_lookup Hm].
        destruct (scan_assets_first _ _ _ _ Hk Hm)
          as (k0 & a0 & _ & Hk0 & Hm0 & Hfirst & Hscan0).
        assert (a0 = a) as -> by congruence.
        exists 0, t, k0. split_and!; [done | intros; lia | done..].
      * intros (i & tag & k & Hi & Hearlier & Hk & Hm & Hfirst).
        destruct i as [|i]; simpl in Hi.
        -- injection Hi as <-.
           destruct (scan_assets_first _ _ _ _ Hk Hm)
             as (k0 & a0 & Hle & Hk0 & Hm0 & _ & Hscan0).
           assert (a0 = b) as -> by congruence.
           destruct (decide (k0 = k)) as [->|Hne]; [congruence|].
           assert (Hlt : k0 < k) by lia.
           rewrite (Hfirst k0 b Hlt Hk0) in Hm0. done.
        -- apply scan_assets_Some in Hscan as [Hin Hmb].
           rewrite (Hearlier 0 t b) in Hmb; [done | lia | done | done].
    + rewrite IH. rewrite scan_assets_None in Hscan. split.
      * intros (i & tag & k & Hi & Hearlier & Hrest).
        exists (S i), tag, k. split_and!; [done | | apply Hrest..].
        intros [|j] earlier b Hj Hlook Hin; simpl in Hlook.
        -- injection Hlook as <-. by apply Hscan.
        -- eapply Hearlier; [|done..]. lia.
      * intros (i & tag & k & Hi & Hearlier & Hk & Hm & Hfirst).
        destruct i as [|i]; simpl in Hi.
        -- injection Hi as <-. rewrite Hscan in Hm; [done|].
           apply list_elem_of_lookup. by exists k.
        -- exists i, tag, k. split_and!; [done | | done..].
           intros j earlier b Hj Hlook Hin.
           apply (Hearlier (S j) earlier b); [lia | done | done].
Qed.

(** X13. The platform tag is looked for anywhere in the file name, so an
    asset that matches a tag matches every text contained in that tag, the
    empty tag included: a shorter tag never matches fewer assets. *)
Theorem shorter_tag_matches_more (tool : string) (version : option string)
    (platform_tag part : string) (a : asset) :
  tag_matches tool version platform_tag a = true →
  Str.contains platform_tag part = true →
  tag_matches tool version part a = true
  ∧ tag_matches tool version "" a = true.
Proof.
  unfold tag_matches, asset_matches.
  rewrite !andb_true_iff. intros [[Hprefix Hwhl] Htag] Hpart.
  split; (split; [by split |]).
  - by eapply contains_trans.
  - apply contains_empty.
Qed.

Lemma shorter_tag_matches_more_witness :
  (tag_matches "clang-format" (Some "20.1.8")
     "manylinux_2_17_x86_64.manylinux2014_x86_64" wheel_2_17 = true
   ∧ Str.contains "manylinux_2_17_x86_64.manylinux2014_x86_64" "x86_64" = true)
  ∧ tag_matches "clang-format" (Some "20.1.8") "x86_64" wheel_2_17 = true.
Proof.
  assert (Hm : tag_matches "clang-format" (Some "20.1.8")
                 "manylinux_2_17_x86_64.manylinux2014_x86_64" wheel_2_17 = true)
    by (vm_compute; reflexivity).
  assert (Hp : Str.contains "manylinux_2_17_x86_64.manylinux2014_x86_64" "x86_64" = true)
    by (vm_compute; reflexivity).
  split; [by split |].
  exact (proj1 (shorter_tag_matches_more _ _ _ _ _ Hm Hp)).
Defined.

Lemma startswith_app_l (s p q : string) :
  Str.startswith s (p +:+ q) = true → Str.startswith s p = true.
Proof.
  rewrite !startswith_spec. intros [r ->]. exists (q +:+ r). by rewrite app_assoc.
Qed.

(** X14. Whatever the matcher can return is shown by the listing filter:
    an asset that matches some tag, with or without a version, has a name
    that starts with the tool name (in either spelling) and a hyphen and ends
    with ".whl", which is the test that selects the assets to list. *)
Theorem matched_asset_is_listed (tool : string) (version : option string)
    (platform_tag : string) (a : asset) :
  tag_matches tool version platform_tag a = true →
  is_tool_asset tool a = true.
Proof.
  unfold tag_matches, asset_matches, is_tool_asset.
  rewrite !andb_true_iff, !orb_true_iff. intros [[Hprefix Hwhl] _].
  split; [|done].
  assert (Hpat : ∀ t, wheel_pattern t version
                      = (t +:+ "-") +:+ match given version with
                                        | Some v => (v +:+ "-") +:+ "py2.py3-none-"
                                        | None => "py2.py3-none-"
                                        end).
  { intros t. unfold wheel_pattern. destruct (given version); by rewrite ?app_assoc. }
  rewrite !Hpat in Hprefix.
  destruct Hprefix as [H|H]; [left | right]; by eapply startswith_app_l.
Qed.

Lemma matched_asset_is_listed_witness :
  tag_matches "clang-format" (Some "20.1.8") "win_amd64" wheel_underscore = true
  ∧ is_tool_asset "clang-format" wheel_underscore = true.
Proof.
  assert (Hm : tag_matches "clang-format" (Some "20.1.8") "win_amd64" wheel_underscore
               = true) by (vm_compute; reflexivity).
  split; [exact Hm |].
  exact (matched_asset_is_listed _ _ _ _ Hm).
Defined.

(** ** Splitting, joining and the platform listing *)

Section SplitFacts.

Variable d : ascii.
Lemma rev_app_app (s t u : string) :
  String.rev_app s t +:+ u = String.rev_app s (t +:+ u).
Proof.
  revert t. induction s as [|c s IH]; intros t; [done|].
  simpl. by rewrite IH.
Qed.

Lemma rev_cons (c : ascii) (s : string) :
  String.rev (String c s) = String.rev s +:+ String c "".
Proof. unfold String.rev. simpl. by rewrite rev_app_app. Qed.

Lemma split_go_cons (cur : string) (c : ascii) (s : string) :
  Str.split_go (String d "") 0 cur (String c s)
  = if Ascii.eqb d c
    then String.rev cur :: Str.split_go (String d "") 0 "" s
    else Str.split_go (String d "") 0 (String c cur) s.
Proof.
  change (Str.split_go (String d "") 0 cur (String c s))
    with (if Ascii.eqb d c && true
          then String.rev cur :: Str.split_go (String d "") 0 "" s
          else Str.split_go (String d "") 0 (String c cur) s).
  by rewrite andb_true_r.
Qed.

Lemma split_go_nonempty (cur s : string) : Str.split_go (String d "") 0 cur s ≠ [].
Proof.
  revert cur. induction s as [|c s IH]; intros cur; [done|].
  rewrite split_go_cons. destruct (Ascii.eqb d c); [done | apply IH].
Qed.

Lemma join_cons (p : string) (rest : list string) :
  rest ≠ [] → Str.join (String d "") (p :: rest) = p +:+ (String d "") +:+ Str.join (String d "") rest.
Proof. by destruct rest. Qed.

Lemma join_split_go (cur s : string) :
  Str.join (String d "") (Str.split_go (String d "") 0 cur s) = String.rev cur +:+ s.
Proof.
  revert cur. induction s as [|c s IH]; intros cur.
  - simpl. by rewrite app_empty_r.
  - rewrite split_go_cons. destruct (Ascii.eqb_spec d c) as [<-|Hc].
    + rewrite join_cons by apply split_go_nonempty. by rewrite IH.
    + rewrite IH, rev_cons. by rewrite app_assoc.
Qed.

Lemma contains_char_cons (c : ascii) (s : string) :
  Str.contains (String c s) (String d "") = Ascii.eqb d c || Str.contains s (String d "").
Proof.
  change (Str.contains (String c s) (String d ""))
    with (Ascii.eqb d c && true || Str.contains s (String d "")).
  by rewrite andb_true_r.
Qed.

Lemma contains_char_app (s t : string) :
  Str.contains (s +:+ t) (String d "") = Str.contains s (String d "") || Str.contains t (String d "").
Proof.
  induction s as [|c s IH]; [done|].
  rewrite app_cons, !contains_char_cons, IH. by rewrite orb_assoc.
Qed.

Lemma split_go_tokens (cur s token : string) :
  Str.contains (String.rev cur) (String d "") = false →
  token ∈ Str.split_go (String d "") 0 cur s → Str.contains token (String d "") = false.
Proof.
  revert cur. induction s as [|c s IH]; intros cur Hcur.
  - by intros ->%list_elem_of_singleton.
  - rewrite split_go_cons. destruct (Ascii.eqb_spec d c) as [<-|Hc].
    + intros [->|Hin]%elem_of_cons; [done | by apply (IH "")].
    + apply IH. rewrite rev_cons, contains_char_app, Hcur, contains_char_cons.
      by destruct (Ascii.eqb_spec d c).
Qed.

Lemma split_go_app (cur a b : string) :
  Str.split_go (String d "") 0 cur (a +:+ (String d "") +:+ b)
  = Str.split_go (String d "") 0 cur a ++ Str.split_go (String d "") 0 "" b.
Proof.
  revert cur. induction a as [|c a IH]; intros cur.
  - rewrite app_empty_l, app_cons, app_empty_l, split_go_cons.
    by rewrite Ascii.eqb_refl.
  - rewrite app_cons, !split_go_cons.
    destruct (Ascii.eqb d c); by rewrite IH.
Qed.

Lemma split_go_whole (cur s : string) :
  Str.contains s (String d "") = false →
  Str.split_go (String d "") 0 cur s = [String.rev cur +:+ s].
Proof.
  revert cur. induction s as [|c s IH]; intros cur.
  - intros _. simpl. by rewrite app_empty_r.
  - rewrite contains_char_cons, split_go_cons.
    intros [-> Hs]%orb_false_iff. rewrite (IH _ Hs), rev_cons.
    by rewrite app_assoc.
Qed.

End SplitFacts.

(** X15. Splitting on a one-character separator and joining with it gives
    the text back; the list of tokens is never empty, and no token contains
    the separator. *)
Theorem join_split_roundtrip (d : ascii) (s : string) :
  let sep := String d EmptyString in
  Str.join sep (Str.split s sep) = s
  ∧ Str.split s sep ≠ []
  ∧ (∀ token, token ∈ Str.split s sep → Str.contains token sep = false).
Proof.
  intros sep. unfold Str.split. split_and!.
  - apply join_split_go.
  - apply split_go_nonempty.
  - intros token. by apply split_go_tokens.
Qed.

Lemma whl_no_straddle (c : ascii) (s : string) :
  Str.startswith (String c s) ".whl" = false →
  Str.startswith (String c (s +:+ ".whl")) ".whl" = false.
Proof.
  destruct s as [|c1 [|c2 [|c3 s]]]; cbn [Str.startswith String.append];
    intros H; try exact H;
    repeat match goal with
      | |- context [Ascii.eqb ?a ?b] => is_var b; destruct (Ascii.eqb a b)
      end; reflexivity.
Qed.

Lemma replace_whl_suffix (stem : string) :
  Str.contains stem ".whl" = false →
  Str.replace (stem +:+ ".whl") ".whl" "" = stem.
Proof.
  unfold Str.replace. induction stem as [|c stem IH]; [done|].
  change (Str.contains (String c stem) ".whl")
    with (Str.startswith (String c stem) ".whl" || Str.contains stem ".whl").
  intros [Hhere Hrest]%orb_false_iff.
  rewrite app_cons.
  change (Str.replace_go ".whl" "" 0 (String c (stem +:+ ".whl")))
    with (if Str.startswith (String c (stem +:+ ".whl")) ".whl"
          then "" +:+ Str.replace_go ".whl" "" 3 (stem +:+ ".whl")
          else String c (Str.replace_go ".whl" "" 0 (stem +:+ ".whl"))).
  rewrite (whl_no_straddle _ _ Hhere). by rewrite (IH Hrest).
Qed.

(** X16. For an asset name made of a tool name and a version without
    hyphens, the middle segment, a platform part and ".whl" (the underscored
    spelling, clang_tidy-1.0-py2.py3-none-<platform>.whl), the listing
    extracts exactly the platform part, hyphens of the platform part
    included, provided ".whl" occurs nowhere else in the name. *)
Theorem platform_part_of_underscored_name (tool_name version platform : string) :
  let stem := tool_name +:+ "-" +:+ version +:+ "-py2.py3-none-" +:+ platform in
  Str.contains tool_name "-" = false →
  Str.contains version "-" = false →
  Str.contains stem ".whl" = false →
  platform_part (stem +:+ ".whl") = Some platform.
Proof.
  intros stem Htool Hversion Hwhl. unfold platform_part.
  rewrite (replace_whl_suffix stem Hwhl). subst stem. unfold Str.split.
  change ("-py2.py3-none-" +:+ platform)
    with ("-" +:+ "py2.py3" +:+ "-" +:+ "none" +:+ "-" +:+ platform).
  rewrite !split_go_app.
  rewrite (split_go_whole _ _ tool_name Htool), (split_go_whole _ _ version Hversion).
  rewrite (split_go_whole _ _ "py2.py3") by done.
  rewrite (split_go_whole _ _ "none") by done.
  cbn [app String.rev String.rev_app String.append drop].
  pose proof (split_go_nonempty "-" "" platform) as Hne.
  destruct (Str.split_go "-" 0 "" platform) as [|p rest] eqn:Hsplit; [done|].
  cbn [length Nat.leb]. rewrite <- Hsplit. f_equal. apply join_split_go.
Qed.

Lemma platform_part_of_underscored_name_witness :
  (Str.contains "clang_tidy" "-" = false
   ∧ Str.contains "1.0" "-" = false
   ∧ Str.contains "clang_tidy-1.0-py2.py3-none-manylinux_2_17_x86_64.manylinux2014_x86_64"
       ".whl" = false)
  ∧ platform_part
      "clang_tidy-1.0-py2.py3-none-manylinux_2_17_x86_64.manylinux2014_x86_64.whl"
    = Some "manylinux_2_17_x86_64.manylinux2014_x86_64".
Proof.
  assert (Ht : Str.contains "clang_tidy" "-" = false) by reflexivity.
  assert (Hv : Str.contains "1.0" "-" = false) by reflexivity.
  assert (Hw : Str.contains
                 "clang_tidy-1.0-py2.py3-none-manylinux_2_17_x86_64.manylinux2014_x86_64"
                 ".whl" = false) by (vm_compute; reflexivity).
  split; [by split_and! |].
  exact (platform_part_of_underscored_name "clang_tidy" "1.0"
           "manylinux_2_17_x86_64.manylinux2014_x86_64" Ht Hv Hw).
Defined.



Lemma foldl_add_platform (platforms : gset string) (l : list asset) (p : string) :
  p ∈ foldl add_platform platforms l
  ↔ p ∈ platforms ∨ ∃ a, a ∈ l ∧ platform_part (name a) = Some p.
Proof.
  revert platforms. induction l as [|b l IH]; intros platforms; simpl.
  - split; [by left | intros [?|(a & Ha & _)]; [done | by apply elem_of_nil in Ha]].
  - rewrite IH. unfold add_platform at 1.
    destruct (platform_part (name b)) as [q|] eqn:Hb.
    + rewrite elem_of_union, elem_of_singleton. split.
      * intros [[?| ->]|(a & Ha & Hp)]; [by left | right | right].
        -- exists b. split; [left | done].
        -- exists a. split; [by right | done].
      * intros [?|(a & [->|Ha]%elem_of_cons & Hp)]; [by left; left | | ].
        -- left. right. congruence.
        -- right. by exists a.
    + split.
      * intros [?|(a & Ha & Hp)]; [by left | right].
        exists a. split; [by right | done].
      * intros [?|(a & [->|Ha]%elem_of_cons & Hp)]; [by left | congruence | ].
        right. by exists a.
Qed.

(** X18. The platforms printed by the listing are in ascending order and
    without repetition, and they are exactly the platform parts of the
    release's assets that pass the tool filter and have at least five
    tokens. *)
Theorem listed_platforms_sorted_distinct (tool : string) (release_assets : list asset) :
  let printed := sorted (collect_platforms tool release_assets) in
  Sorted String.le printed
  ∧ NoDup printed
  ∧ ∀ p, p ∈ printed
         ↔ ∃ a, a ∈ release_assets ∧ is_tool_asset tool a = true
                ∧ platform_part (name a) = Some p.
Proof.
  intros printed. subst printed. unfold sorted. split_and!.
  - apply Sorted_merge_sort. apply _.
  - rewrite merge_sort_Permutation. apply NoDup_elements.
  - intros p. rewrite merge_sort_Permutation, elem_of_elements.
    unfold collect_platforms. rewrite foldl_add_platform. split.
    + intros [Hin|(a & [Htool Ha]%list_elem_of_filter & Hp)].
      * by apply not_elem_of_empty in Hin.
      * by exists a.
    + intros (a & Ha & Htool & Hp). right. exists a.
      split; [by apply list_elem_of_filter | done].
Qed.

(** ** The whole run: [main] *)


Section MainFacts.

Variable path_join : string → string → string.
Variable format_mb : Z → string.

Implicit Types (a : args) (w : world) (release : release_info).





End MainFacts.

Section MainPaths.

Variable path_join : string → string → string.
Variable format_mb : Z → string.

Implicit Types (a : args) (w : world) (release : release_info).

(** X20. With a non-empty [--platform] value the platform of the machine
    plays no part: the run is the same whatever the OS name, the machine name
    and the outcome of the [ldd] call are. *)
Theorem platform_override_ignores_machine a w
    (platform_system platform_machine : string) (ldd : run_outcome) (p : string) :
  given (arg_platform a) = Some p →
  main path_join format_mb a
    (World platform_system platform_machine ldd
       (w_urlopen_json w) (w_mkdir w) (w_urlretrieve w))
  = main path_join format_mb a w.
Proof.
  intros Hp. unfold main, main_platform, main_download. simpl.
  by rewrite Hp.
Qed.

(** X21. When the release cannot be fetched the run ends at once with
    status 1 after two lines, in listing mode as in download mode: the line
    that announces the fetch and "Error: " followed by the fetcher's message,
    which names the version when one was given. *)
Theorem main_fetch_failure a w (e : exn) :
  w_urlopen_json w (release_url default_repo (arg_version a)) = Raise e →
  main path_join format_mb a w
  = match given (arg_version a) with
    | Some v =>
        (["Fetching release information for version " +:+ v +:+ "...";
          "Error: Failed to fetch release info for version " +:+ v +:+ ": "
            +:+ exn_str e], 1%Z)
    | None =>
        (["Fetching latest release information...";
          "Error: Failed to fetch latest release info: " +:+ exn_str e], 1%Z)
    end.
Proof.
  intros Hraise. unfold main, get_release_info. rewrite Hraise.
  by destruct (given (arg_version a)).
Qed.

(** X22. In listing mode nothing but the release request matters: the run
    is that of the listing branch alone, whatever the platform, the
    [--platform] and [--output] values, the directory and the transfer are. *)
Theorem main_listing_only_fetches a w :
  arg_list_platforms a = true →
  main path_join format_mb a w
  = main_list_platforms (w_urlopen_json w) (arg_tool a) (arg_version a).
Proof.
  intros Hlist. unfold main, main_list_platforms. rewrite Hlist.
  by destruct (get_release_info _ _ _).
Qed.

(** X23. When no asset of the fetched release matches the [--platform]
    value, the run ends with status 1; it prints that no wheel was found for
    the tool on that platform, the requested version when one was given, the
    tag of the release that was looked at, and the hint at the listing. The
    outcome of making the directory and of the transfer plays no part: the run
    is the same whatever they would be. *)
Theorem main_no_wheel_found a w release (p : string) :
  arg_list_platforms a = false →
  given (arg_platform a) = Some p →
  get_release_info (w_urlopen_json w) default_repo (arg_version a) = Ok release →
  find_wheel_asset (assets release) (arg_tool a) [p]
    (Some (Str.lstrip (tag_name release) "v")) = None →
  ∀ (mkdir : string → result unit) (urlretrieve : string → string → result unit),
    main path_join format_mb a
      (World (w_system w) (w_machine w) (w_ldd w) (w_urlopen_json w) mkdir urlretrieve)
    = (match given (arg_version a) with
       | Some v => ["Fetching release information for version " +:+ v +:+ "..."]
       | None => ["Fetching latest release information..."]
       end
       ++ ["No wheel found for " +:+ arg_tool a +:+ " on platform " +:+ p]
       ++ match given (arg_version a) with
          | Some v => ["Requested version: " +:+ v]
          | None => []
          end
       ++ ["Available release: " +:+ tag_name release;
           "Use --list-platforms to see all available platforms"], 1%Z).
Proof.
  intros Hlist Hp Hfetch Hfind mkdir urlretrieve.
  unfold main, main_platform, main_download.
  cbn [w_urlopen_json w_system w_machine w_ldd w_mkdir w_urlretrieve].
  rewrite Hfetch, Hlist, Hp, Hfind. simpl.
  by destruct (given (arg_version a)).
Qed.

End MainPaths.

Example main_end_to_end :
  main path_join_slash format_mb_whole args_win world_fine
  = (["Fetching release information for version 20.1.8...";
      "Downloading wheels/clang_format-20.1.8-py2.py3-none-win_amd64.whl...";
      "Successfully downloaded wheels/clang_format-20.1.8-py2.py3-none-win_amd64.whl";
      newline +:+ "Wheel downloaded successfully!";
      "File: wheels/clang_format-20.1.8-py2.py3-none-win_amd64.whl";
      "Size: 0.0 MB";
      newline +:+ "To install: pip install wheels/clang_format-20.1.8-py2.py3-none-win_amd64.whl"],
     0%Z).
Proof. vm_compute. reflexivity. Qed.

Lemma platform_override_ignores_machine_witness :
  given (arg_platform args_win) = Some "win_amd64"
  ∧ main path_join_slash format_mb_whole args_win
      (World "Plan9" "mips" ldd_missing
         (w_urlopen_json world_fine) (w_mkdir world_fine) (w_urlretrieve world_fine))
    = main path_join_slash format_mb_whole args_win world_fine.
Proof.
  assert (Hp : given (arg_platform args_win) = Some "win_amd64") by reflexivity.
  split; [exact Hp |].
  exact (platform_override_ignores_machine path_join_slash format_mb_whole
           args_win world_fine "Plan9" "mips" ldd_missing "win_amd64" Hp).
Defined.

Lemma main_fetch_failure_witness :
  w_urlopen_json world_offline (release_url default_repo (arg_version args_win))
  = Raise (Exn HTTPError "HTTP Error 404: Not Found")
  ∧ main path_join_slash format_mb_whole args_win world_offline
    = (["Fetching release information for version 20.1.8...";
        "Error: Failed to fetch release info for version 20.1.8: HTTP Error 404: Not Found"],
       1%Z).
Proof.
  assert (Hraise : w_urlopen_json world_offline
                     (release_url default_repo (arg_version args_win))
                   = Raise (Exn HTTPError "HTTP Error 404: Not Found")) by reflexivity.
  split; [exact Hraise |].
  exact (main_fetch_failure path_join_slash format_mb_whole args_win world_offline _ Hraise).
Defined.

Lemma main_listing_only_fetches_witness :
  arg_list_platforms (Args "clang-tidy" None "." None true) = true
  ∧ main path_join_slash format_mb_whole (Args "clang-tidy" None "." None true)
      world_offline
    = (["Fetching latest release information...";
        "Error: Failed to fetch latest release info: HTTP Error 404: Not Found"], 1%Z).
Proof.
  assert (Hlist : arg_list_platforms (Args "clang-tidy" None "." None true) = true)
    by reflexivity.
  split; [exact Hlist |].
  rewrite (main_listing_only_fetches path_join_slash format_mb_whole _ world_offline Hlist).
  reflexivity.
Defined.

Lemma main_no_wheel_found_witness :
  (arg_list_platforms args_win_arm = false
   ∧ given (arg_platform args_win_arm) = Some "win_arm64"
   ∧ get_release_info (w_urlopen_json world_fine) default_repo (arg_version args_win_arm)
     = Ok release_20_1_8
   ∧ find_wheel_asset (assets release_20_1_8) (arg_tool args_win_arm) ["win_arm64"]
       (Some (Str.lstrip (tag_name release_20_1_8) "v")) = None)
  ∧ main path_join_slash format_mb_whole args_win_arm world_fine
    = (["Fetching release information for version 20.1.8...";
        "No wheel found for clang-format on platform win_arm64";
        "Requested version: 20.1.8";
        "Available release: v20.1.8";
        "Use --list-platforms to see all available platforms"], 1%Z)
  ∧ main path_join_slash format_mb_whole args_win_arm
      (World "Linux" "x86_64" ldd_glibc (w_urlopen_json world_fine)
         (λ _, Raise (Exn PermissionError "[Errno 13] Permission denied: 'wheels'"))
         urlretrieve_refused)
    = main path_join_slash format_mb_whole args_win_arm world_fine.
Proof.
  assert (Hlist : arg_list_platforms args_win_arm = false) by reflexivity.
  assert (Hp : given (arg_platform args_win_arm) = Some "win_arm64") by reflexivity.
  assert (Hfetch : get_release_info (w_urlopen_json world_fine) default_repo
                     (arg_version args_win_arm) = Ok release_20_1_8) by reflexivity.
  assert (Hfind : find_wheel_asset (assets release_20_1_8) (arg_tool args_win_arm)
                    ["win_arm64"] (Some (Str.lstrip (tag_name release_20_1_8) "v"))
                  = None) by (vm_compute; reflexivity).
  pose proof (main_no_wheel_found path_join_slash format_mb_whole args_win_arm
                world_fine release_20_1_8 "win_arm64" Hlist Hp Hfetch Hfind) as Hrun.
  split; [by split_and! |]. split.
  - exact (Hrun (w_mkdir world_fine) (w_urlretrieve world_fine)).
  - etransitivity; [exact (Hrun _ urlretrieve_refused) |].
    symmetry. exact (Hrun (w_mkdir world_fine) (w_urlretrieve world_fine)).
Defined.

Example main_with_parser_rejects :
  main_with_parser path_join_slash format_mb_whole UsageError world_fine = ([], 2%Z).
Proof. reflexivity. Qed.

Example main_decode_error_prints_hint :
  main path_join_slash format_mb_whole
    (Args "clang-format" None "." None false)
    (World "Linux" "x86_64"
       (RunRaises (Exn UnicodeDecodeError "'utf-8' codec can't decode byte 0xff"))
       (λ _, Ok release_20_1_8) (λ _, Ok tt) urlretrieve_done)
  = (["Fetching latest release information...";
      "Error: 'utf-8' codec can't decode byte 0xff";
      "Use --platform to specify manually, or --list-platforms to see available options"],
     1%Z).
Proof. vm_compute. reflexivity. Qed.
